(** * TopDog: the large-CSV extractors

    A shallow embedding of the two CSV processors of the repository,

    - [_archived/scripts/process_large_csv 2.py]        (class [LargeCSVProcessor]),
    - [_archived/scripts/process_large_csv_pandas 2.py] (class [PandasCSVProcessor]),

    and the properties of their schema probing, column classification,
    row extraction, coercion and accumulation.

    Conventions.  A Python [str] is a [string] whose characters are read as
    code points below 256.  A [dict] with [str] keys is a [gmap string _]
    (insertion order is not observed by any statement below).  A Python
    exception is a constructor of [exn]; a function that may raise returns
    a [result], and one that catches every exception an [option].  A file
    is the sequence of rows, or faults, that a reader over it yields.
    [pandas.read_csv] and [repr] of a float are parameters of the pandas
    processor; [Defaults] gives them as the libraries define them, the
    first on the inputs that it states. *)

From Stdlib Require Import ZArith String Ascii List Bool Lia DecimalString.
From Stdlib Require DecimalPos.
From Corelib Require Import SpecFloat.
From stdpp Require Import gmap strings list fin_maps.

Local Open Scope string_scope.
Local Open Scope Z_scope.

(* ===================================================================== *)
(** * Python strings *)
(* ===================================================================== *)

Module PyStr.

Definition code (c : ascii) : Z := Z.of_N (N_of_ascii c).

(** [str.isspace] on one character: the ASCII white space, the four
    separators 0x1c-0x1f, NEL (0x85) and NBSP (0xa0). *)
Definition isspace (c : ascii) : bool :=
  let n := code c in
  ((9 <=? n) && (n <=? 13)) || ((28 <=? n) && (n <=? 32))
  || (n =? 133) || (n =? 160).

Definition isdigit (c : ascii) : bool :=
  let n := code c in (48 <=? n) && (n <=? 57).

Definition digit_value (c : ascii) : Z := code c - 48.

Definition is_empty (s : string) : bool :=
  match s with EmptyString => true | String _ _ => false end.

Fixpoint lstrip (s : string) : string :=
  match s with
  | EmptyString => EmptyString
  | String c t => if isspace c then lstrip t else s
  end.

Fixpoint rstrip (s : string) : string :=
  match s with
  | EmptyString => EmptyString
  | String c t =>
      let t' := rstrip t in
      if is_empty t' && isspace c then EmptyString else String c t'
  end.

(** An empty or white-space-only text. *)
Fixpoint all_space (s : string) : bool :=
  match s with
  | EmptyString => true
  | String c t => isspace c && all_space t
  end.

(** [s.strip()] *)
Definition strip (s : string) : string := rstrip (lstrip s).

(** [c.lower()] for one character below 256: A-Z and the Latin-1 capitals
    (0xc0-0xde without the multiplication sign 0xd7) move up by 32. *)
Definition lower_char (c : ascii) : ascii :=
  let n := code c in
  if ((65 <=? n) && (n <=? 90))
     || ((192 <=? n) && (n <=? 222) && negb (n =? 215))
  then ascii_of_N (Z.to_N (n + 32)) else c.

Fixpoint lower (s : string) : string :=
  match s with
  | EmptyString => EmptyString
  | String c t => String (lower_char c) (lower t)
  end.

(** Whether the character [c] occurs in [s]. *)
Fixpoint has_char (c : ascii) (s : string) : bool :=
  match s with
  | EmptyString => false
  | String d t => Ascii.eqb c d || has_char c t
  end.

(** [needle in hay] *)
Fixpoint contains (needle hay : string) : bool :=
  String.prefix needle hay
  || match hay with
     | EmptyString => false
     | String _ t => contains needle t
     end.

(** [any(keyword in s for keyword in keywords)] *)
Definition any_keyword_in (keywords : list string) (s : string) : bool :=
  existsb (fun k => contains k s) keywords.

Definition eqb (a b : string) : bool := String.eqb a b.

End PyStr.

(* ===================================================================== *)
(** * Python numbers: the builtins [int(str)] and [float(str)] *)
(* ===================================================================== *)

Module PyNum.
Import PyStr.

(** A Python [float] is an IEEE-754 binary64 value. *)
Definition prec : Z := 53.
Definition emax : Z := 1024.
Definition float := spec_float.

(** The longest prefix [digit (_? digit)*] of [s], given that the
    previous character was a digit or that [s] starts with one: the
    digits without their underscores, and the rest. *)
Fixpoint digits_from (s : string) : list ascii * string :=
  match s with
  | EmptyString => ([], EmptyString)
  | String c t =>
      if isdigit c then
        let '(ds, r) := digits_from t in (c :: ds, r)
      else if Ascii.eqb c "_" then
        match t with
        | String d _ =>
            if isdigit d then digits_from t else ([], s)
        | EmptyString => ([], s)
        end
      else ([], s)
  end.

(** A digit part must begin with a digit (never with an underscore). *)
Definition digitpart (s : string) : list ascii * string :=
  match s with
  | String c _ => if isdigit c then digits_from s else ([], s)
  | EmptyString => ([], s)
  end.

Definition digits_value (ds : list ascii) : Z :=
  fold_left (fun acc d => 10 * acc + digit_value d) ds 0.

(** An optional sign: [true] for minus. *)
Definition sign (s : string) : bool * string :=
  match s with
  | String c t =>
      if Ascii.eqb c "-" then (true, t)
      else if Ascii.eqb c "+" then (false, t)
      else (false, s)
  | EmptyString => (false, s)
  end.

(** The default of [sys.int_max_str_digits] (CPython 3.11 and later, and
    the security releases of the earlier lines): the scripts never change
    it. *)
Definition max_str_digits : Z := 4300.

(** [int(s)] in base 10: white space around, an optional sign, digits
    with single underscores between them, and no more than
    [max_str_digits] digits (the sign, the underscores and the white
    space are not counted, leading zeros are).  [None] is
    [ValueError]. *)
Definition py_int (s : string) : option Z :=
  let '(neg, r) := sign (strip s) in
  match digitpart r with
  | (d :: ds, EmptyString) =>
      if Z.of_nat (length (d :: ds)) <=? max_str_digits then
        let v := digits_value (d :: ds) in
        Some (if neg then - v else v)
      else None
  | _ => None
  end.

(** The double nearest to [(-1)^neg * m * 10^k] (ties to even). *)
Definition round_decimal (neg : bool) (m k : Z) : float :=
  match m with
  | Zpos p =>
      match k with
      | Zneg q =>
          SFdiv prec emax (S754_finite neg p 0)
                (S754_finite false (Pos.pow 10 q) 0)
      | _ => binary_normalize prec emax
               (if neg then - (m * 10 ^ k) else m * 10 ^ k) 0 neg
      end
  | _ => S754_zero neg
  end.

(** The exponent part [(e|E) [sign] digitpart], if one is there. *)
Definition exponent (s : string) : option (Z * string) :=
  match s with
  | String c t =>
      if Ascii.eqb c "e" || Ascii.eqb c "E" then
        let '(neg, r) := sign t in
        match digitpart r with
        | (d :: ds, r') =>
            let v := digits_value (d :: ds) in
            Some (if neg then - v else v, r')
        | _ => None
        end
      else Some (0, s)
  | EmptyString => Some (0, s)
  end.

(** [digitpart ["." [digitpart]] | "." digitpart], then the exponent. *)
Definition decimal (neg : bool) (s : string) : option float :=
  let '(ip, r) := digitpart s in
  let '(fp, r1) :=
    match r with
    | String c t => if Ascii.eqb c "." then digitpart t else ([], r)
    | EmptyString => ([], r)
    end in
  match (ip ++ fp)%list with
  | [] => None
  | _ :: _ =>
      match exponent r1 with
      | Some (e, EmptyString) =>
          Some (round_decimal neg (digits_value (ip ++ fp)%list)
                              (e - Z.of_nat (length fp)))
      | _ => None
      end
  end.

(** [float(s)]: white space around, an optional sign, then [inf],
    [infinity] or [nan] in any case, or a decimal literal.  [None] is
    [ValueError]. *)
Definition py_float (s : string) : option float :=
  let '(neg, r) := sign (strip s) in
  let w := lower r in
  if PyStr.eqb w "inf" || PyStr.eqb w "infinity" then Some (S754_infinity neg)
  else if PyStr.eqb w "nan" then Some S754_nan
  else decimal neg r.

End PyNum.


(* ===================================================================== *)
(** * Exceptions and indexing *)
(* ===================================================================== *)

Module Py.

(** The exceptions that the modelled code can meet. *)
Inductive exn : Set :=
| IndexError      (** a list index out of range *)
| StopIteration   (** [next] on an exhausted reader *)
| CsvError        (** [csv.Error]: a line the reader cannot parse *)
| OSError.        (** an I/O failure of [open] or of a read *)

Inductive result (A : Type) : Type :=
| Ok (a : A)
| Raise (e : exn).
Arguments Ok {A} a.
Arguments Raise {A} e.

Definition bind {A B} (r : result A) (k : A -> result B) : result B :=
  match r with
  | Ok a => k a
  | Raise e => Raise e
  end.

(** What a reader over a delimited text file yields when asked for the
    next row: a row of fields, or an exception.  The end of the list is
    the end of the file. *)
Inductive event : Type :=
| Row (fields : list string)
| Fault (e : exn).

(** [l[i]] with Python's negative indices. *)
Definition py_index {A} (l : list A) (i : Z) : result A :=
  let n := Z.of_nat (length l) in
  let j := if i <? 0 then i + n else i in
  if (0 <=? j) && (j <? n) then
    match nth_error l (Z.to_nat j) with
    | Some a => Ok a
    | None => Raise IndexError
    end
  else Raise IndexError.

(** [max(l, default=d)] *)
Definition py_max_default (l : list Z) (d : Z) : Z :=
  match l with
  | [] => d
  | x :: t => fold_left Z.max t x
  end.

(** A [for] loop whose body may raise. *)
Fixpoint for_each {A S} (body : S -> A -> result S) (l : list A) (s : S)
  : result S :=
  match l with
  | [] => Ok s
  | a :: t => bind (body s a) (for_each body t)
  end.

End Py.

Notation "x <- c1 ;; c2" := (Py.bind c1 (fun x => c2))
  (at level 100, c1 at next level, right associativity).

(* ===================================================================== *)
(** * [process_large_csv 2.py]: class [LargeCSVProcessor] *)
(* ===================================================================== *)

Module LargeCSV.
Import PyStr PyNum Py.

(** A file on disk, as the program sees it: the events of a
    [csv.reader] over it, and what counting its raw lines gives. *)
Record csv_file : Type := {
  reader : list event;
  raw_lines : result Z
}.

(** The attributes of a processor, set by [__init__]. *)
Record processor : Type := {
  headers : list string;
  row_count : Z;
  chunk_size : Z
}.

Definition init : processor :=
  {| headers := []; row_count := 0; chunk_size := 10000 |}.

Definition is_row (ev : event) : bool :=
  match ev with Row _ => true | Fault _ => false end.

(** [analyze_file]: the header and the sample rows are read inside one
    [try]; the sample loop asks for a row, prints rows 0, 1 and 2 and
    breaks at the fourth.  The line count has a [try] of its own. *)
Definition analyze_file (f : csv_file) (self : processor)
  : bool * processor :=
  match reader f with
  | [] => (false, self)
  | Fault _ :: _ => (false, self)
  | Row h :: rest =>
      let self1 := {| headers := h; row_count := row_count self;
                      chunk_size := chunk_size self |} in
      if forallb is_row (firstn 4 rest) then
        let self2 :=
          match raw_lines f with
          | Ok n => {| headers := h; row_count := n - 1;
                       chunk_size := chunk_size self |}
          | Raise _ => self1
          end in
        (true, self2)
      else (false, self1)
  end.

(** A typed attribute value: the outcome of the conversion chain. *)
Inductive value : Type :=
| VInt (z : Z)
| VFloat (x : float)
| VStr (s : string).

(** Lines 121-128: the [try] around [float] or [int], chosen by the
    presence of a dot, with the text kept on [ValueError]. *)
Definition coerce (stat_value : string) : value :=
  if contains "." stat_value then
    match py_float stat_value with
    | Some x => VFloat x
    | None => VStr stat_value
    end
  else
    match py_int stat_value with
    | Some z => VInt z
    | None => VStr stat_value
    end.

Abbreviation record := (gmap string value).
Abbreviation table := (gmap string (gmap string value)).

(** The two locals that the extraction loop updates ([row_num] of
    [enumerate] is assigned and never read). *)
Record loop_state : Type := {
  players_data : table;
  processed_rows : Z
}.

Section Extract.
Variable self : processor.
Variable player_col_idx : Z.
Variable stat_col_indices : list Z.

(** Line 107: the row does not reach the furthest selected index. *)
Definition too_short (row : list string) : bool :=
  Z.of_nat (length row)
  <=? Z.max player_col_idx (py_max_default stat_col_indices 0).

(** Lines 116-128, one turn. *)
Definition stat_step (row : list string) (player_stats : record)
           (stat_idx : Z) : result record :=
  if stat_idx <? Z.of_nat (length row) then
    stat_name <- py_index (headers self) stat_idx ;;
    cell <- py_index row stat_idx ;;
    Ok (<[stat_name := coerce (strip cell)]> player_stats)
  else Ok player_stats.

Definition build_stats (row : list string) (player_name : string)
  : result record :=
  for_each (stat_step row) stat_col_indices
           {[ "name" := VStr player_name ]}.

(** Lines 107-128 without the accumulation: the key and the
    attributes that a row yields, [None] for a row passed over. *)
Definition extracted (row : list string)
  : result (option (string * record)) :=
  if too_short row then Ok None
  else
    cell <- py_index row player_col_idx ;;
    let player_name := strip cell in
    if is_empty player_name then Ok None
    else
      player_stats <- build_stats row player_name ;;
      Ok (Some (player_name, player_stats)).

(** Lines 107-131: the body of the loop for one row. *)
Definition row_step (st : loop_state) (row : list string)
  : result loop_state :=
  if too_short row then Ok st
  else
    cell <- py_index row player_col_idx ;;
    let player_name := strip cell in
    if is_empty player_name then Ok st
    else
      player_stats <- build_stats row player_name ;;
      Ok {| players_data := <[player_name := player_stats]> (players_data st);
            processed_rows := processed_rows st + 1 |}.

(** The [for] over the reader: a fault of the reader ends the loop
    with that exception. *)
Fixpoint rows_loop (evs : list event) (st : loop_state)
  : result loop_state :=
  match evs with
  | [] => Ok st
  | Fault e :: _ => Raise e
  | Row row :: rest => st' <- row_step st row ;; rows_loop rest st'
  end.

Definition start : loop_state :=
  {| players_data := ∅; processed_rows := 0 |}.

(** [extract_player_data]; [position_filter] is accepted and never
    read, so it is no argument here. *)
Definition extract_player_data (f : csv_file) : result table :=
  _ <- py_index (headers self) player_col_idx ;;
  match reader f with
  | [] => Raise StopIteration
  | Fault e :: _ => Raise e
  | Row _ :: rest =>
      st <- rows_loop rest start ;;
      Ok (players_data st)
  end.

End Extract.

(** How [main] ends, given the file at the path (if any) and the
    selection that [interactive_column_selection] returns (the prompt
    itself, and the operator interrupting it, are left out): the path
    names no file, the analysis failed, the data were extracted and
    handed to [save_extracted_data], or an exception went uncaught. *)
Inductive main_outcome : Type :=
| FileNotFound
| AnalysisFailed
| Extracted (data : table)
| Uncaught (e : exn).

Definition main (file : option csv_file) (selection : Z * list Z)
  : main_outcome :=
  match file with
  | None => FileNotFound
  | Some f =>
      let '(ok, processor) := analyze_file f init in
      if negb ok then AnalysisFailed
      else
        match extract_player_data processor (fst selection)
                                  (snd selection) f with
        | Ok data => Extracted data
        | Raise e => Uncaught e
        end
  end.

End LargeCSV.


(* ===================================================================== *)
(** * [process_large_csv_pandas 2.py]: class [PandasCSVProcessor] *)
(* ===================================================================== *)

Module PandasCSV.
Import PyStr PyNum Py.

(** The value of one cell of a [DataFrame]; [NaN] is the missing
    value. *)
Inductive cell : Type :=
| NaN
| CInt (z : Z)
| CFloat (x : float)
| CBool (b : bool)
| CStr (s : string).

Inductive dtype : Set := object | int64 | float64 | bool_.

Abbreviation record := (gmap string cell).

(** A [DataFrame]: its columns in order, each with its dtype, and its
    rows, each defined on the columns. *)
Record frame : Type := {
  columns : list (string * dtype);
  rows : list (gmap string cell)
}.

(** The attributes of a processor. *)
Record processor : Type := {
  chunk_size : Z;
  headers : list string;
  total_rows : Z;
  sample_data : option frame
}.

Definition init (chunk_size : Z) : processor :=
  {| chunk_size := chunk_size; headers := []; total_rows := 0;
     sample_data := None |}.

(** The [filters] dict: only its keys ['positions'] and ['year'] are
    ever read, so an empty dict, [None] and a dict with neither key are
    all the record with two [None].  The accepted positions are a list
    of [str], as [interactive_setup] builds it. *)
Record filters_t : Type := {
  positions : option (list string);
  year : option cell
}.

Definition is_nan (c : cell) : bool :=
  match c with NaN => true | _ => false end.

Definition dtype_eqb (a b : dtype) : bool :=
  match a, b with
  | object, object | int64, int64 | float64, float64 | bool_, bool_ => true
  | _, _ => false
  end.

(** [pd.api.types.is_numeric_dtype] *)
Definition is_numeric_dtype (d : dtype) : bool :=
  match d with object => false | _ => true end.

Definition in_list (s : string) (l : list string) : bool :=
  existsb (String.eqb s) l.

(** Whether the double [x] is the integer [z]. *)
Definition float_is_int (x : float) (z : Z) : bool :=
  match x with
  | S754_zero _ => z =? 0
  | S754_finite s m e =>
      let v := if s then Z.neg m else Z.pos m in
      if 0 <=? e then z =? v * 2 ^ e
      else (v mod 2 ^ (- e) =? 0) && (z =? v / 2 ^ (- e))
  | _ => false
  end.

Definition int_of_bool (b : bool) : Z := if b then 1 else 0.

(** Elementwise [==] between a cell and a Python value: numbers by
    value, text by characters, and [NaN] equal to nothing. *)
Definition py_eq (a b : cell) : bool :=
  match a, b with
  | CStr s, CStr t => String.eqb s t
  | CInt x, CInt y => x =? y
  | CInt x, CBool y | CBool y, CInt x => x =? int_of_bool y
  | CBool x, CBool y => Bool.eqb x y
  | CFloat x, CFloat y => SFeqb x y
  | CFloat x, CInt y | CInt y, CFloat x => float_is_int x y
  | CFloat x, CBool y | CBool y, CFloat x => float_is_int x (int_of_bool y)
  | _, _ => false
  end.

(** [Series.isin] against a list of [str]. *)
Definition isin (c : cell) (accepted : list string) : bool :=
  match c with
  | CStr s => in_list s accepted
  | _ => false
  end.

Definition cell_of (row : gmap string cell) (col : string) : cell :=
  default NaN (row !! col).

Definition has_column (df : frame) (col : string) : bool :=
  in_list col (map fst (columns df)).

Definition column_dtype (df : frame) (col : string) : option dtype :=
  snd <$> List.find (fun cd => String.eqb col (fst cd)) (columns df).

(** [df[col]] as a list of values. *)
Definition column_values (df : frame) (col : string) : list cell :=
  map (fun r => cell_of r col) (rows df).

(** [df[mask]] for a row-wise mask. *)
Definition select (keep : gmap string cell -> bool) (df : frame) : frame :=
  {| columns := columns df; rows := List.filter keep (rows df) |}.

(** An optional column name counts when it is neither [None] nor the
    empty text. *)
Definition truthy (o : option string) : option string :=
  match o with
  | Some s => if is_empty s then None else Some s
  | None => None
  end.

Inductive role : Set := PlayerCol | StatCol | PositionCol | TeamCol.

Definition name_keywords : list string :=
  ["name"; "player"; "full_name"; "player_name"].
Definition position_keywords : list string :=
  ["position"; "pos"; "eligible"].
Definition team_keywords : list string := ["team"; "tm"; "club"].
Definition stat_keywords : list string :=
  ["fantasy"; "points"; "pts"; "yards"; "yd"; "yds";
   "touchdown"; "td"; "reception"; "rec"; "target"; "tgt";
   "rush"; "pass"; "adp"; "rank"; "projection"; "proj";
   "actual"; "season"; "week"; "game"; "snap"; "share";
   "ppr"; "half"; "standard"; "score"].

(** The state of the extraction loop. *)
Record loop_state : Type := {
  all_data : list (gmap string cell);
  processed_rows : Z;
  chunk_num : Z
}.

Definition start : loop_state :=
  {| all_data := []; processed_rows := 0; chunk_num := 0 |}.

(** The rows of the next window of at most [n] rows and the events
    left; [None] when the reader faults inside the window. *)
Fixpoint next_window (n : nat) (evs : list event)
  : option (list (list string) * list event) :=
  match n, evs with
  | O, _ => Some ([], evs)
  | S _, [] => Some ([], [])
  | S _, Fault _ :: _ => None
  | S k, Row r :: rest =>
      match next_window k rest with
      | Some (w, rest') => Some (r :: w, rest')
      | None => None
      end
  end.

Section Library.
(** [pandas.read_csv] on one window of rows: the columns to read, the
    header, the rows of the window; [None] when it raises. *)
Variable parse_window :
  list string -> list string -> list (list string) -> option frame.
(** [repr] of a Python float. *)
Variable float_repr : float -> string.

(** [str(v)], which is also [astype(str)] on one cell. *)
Definition astype_str (c : cell) : string :=
  match c with
  | NaN => "nan"
  | CInt z => DecimalString.NilZero.string_of_int (Z.to_int z)
  | CFloat x => float_repr x
  | CBool b => if b then "True" else "False"
  | CStr s => s
  end.

(** Lines 82-117: the body of the detection loop for one column;
    [None] when the column is appended to no list. *)
Definition column_role (col : string) (dt : dtype) (col_data : list cell)
  : option role :=
  let col_lower := lower col in
  if any_keyword_in name_keywords col_lower then
    if dtype_eqb dt object then
      let sample_values :=
        firstn 5 (List.filter (fun v => negb (is_nan v)) col_data) in
      if existsb (fun val => contains " " (astype_str val)) sample_values
      then Some PlayerCol
      else None
    else None
  else if any_keyword_in position_keywords col_lower then Some PositionCol
  else if any_keyword_in team_keywords col_lower then Some TeamCol
  else if any_keyword_in stat_keywords col_lower then
    if is_numeric_dtype dt || dtype_eqb dt object then Some StatCol
    else None
  else None.

Definition columns_with (r : role) (cols : list (string * option role))
  : list string :=
  map fst (List.filter
             (fun cr => match snd cr with
                        | Some r' => match r, r' with
                                     | PlayerCol, PlayerCol
                                     | StatCol, StatCol
                                     | PositionCol, PositionCol
                                     | TeamCol, TeamCol => true
                                     | _, _ => false
                                     end
                        | None => false
                        end) cols).

(** [detect_player_columns]: the four lists, in the order returned.
    [None] is the [KeyError] of a header that is no column of the
    sample. *)
Definition detect_player_columns (self : processor)
  : option (list string * list string * list string * list string) :=
  match sample_data self with
  | None => Some ([], [], [], [])
  | Some df =>
      roles ← mapM (fun col =>
                      dt ← column_dtype df col;
                      Some (col, column_role col dt (column_values df col)))
                   (headers self);
      Some (columns_with PlayerCol roles, columns_with StatCol roles,
            columns_with PositionCol roles, columns_with TeamCol roles)
  end.

Section Extract.
Variable self : processor.
Variable player_col : string.
Variable stat_cols : list string.
Variables position_col team_col : option string.
Variable filters : filters_t.
Variable year_col : option string.

Definition add_column (o : option string) (cols : list string)
  : list string :=
  match truthy o with
  | Some c => if in_list c cols then cols else (cols ++ [c])%list
  | None => cols
  end.

(** Lines 140-146. *)
Definition columns_to_read : list string :=
  add_column year_col
    (add_column team_col
       (add_column position_col (player_col :: stat_cols))).

(** Lines 159-161: drop the rows without a name, turn the names
    into trimmed text, drop the empty ones. *)
Definition clean_name (r : gmap string cell) : gmap string cell :=
  <[player_col := CStr (strip (astype_str (cell_of r player_col)))]> r.

Definition clean (chunk : frame) : option frame :=
  if has_column chunk player_col then
    let chunk1 :=
      select (fun r => negb (is_nan (cell_of r player_col))) chunk in
    let chunk2 :=
      {| columns := map (fun cd => if String.eqb (fst cd) player_col
                                   then (fst cd, object) else cd)
                        (columns chunk1);
         rows := map clean_name (rows chunk1) |} in
    Some (select (fun r => negb (py_eq (cell_of r player_col) (CStr "")))
                 chunk2)
  else None.

(** Lines 164-168. *)
Definition filter_positions (chunk : frame) : option frame :=
  match truthy position_col, positions filters with
  | Some pc, Some accepted =>
      if has_column chunk pc
      then Some (select (fun r => isin (cell_of r pc) accepted) chunk)
      else None
  | _, _ => Some chunk
  end.

Definition filter_year (chunk : frame) : option frame :=
  match truthy year_col, year filters with
  | Some yc, Some y =>
      if has_column chunk yc
      then Some (select (fun r => py_eq (cell_of r yc) y) chunk)
      else None
  | _, _ => Some chunk
  end.

Definition apply_filters (chunk : frame) : option frame :=
  chunk ← filter_positions chunk; filter_year chunk.

(** The text that line 160 makes of the name cell of a row, and
    the rows that lines 159-161 keep. *)
Definition name_text (r : gmap string cell) : string :=
  strip (astype_str (cell_of r player_col)).
Definition named (r : gmap string cell) : bool :=
  negb (is_nan (cell_of r player_col)) && negb (is_empty (name_text r)).

(** The two tests of lines 165-168 on one row. *)
Definition position_ok (r : gmap string cell) : bool :=
  match truthy position_col, positions filters with
  | Some pc, Some accepted => isin (cell_of r pc) accepted
  | _, _ => true
  end.
Definition year_ok (r : gmap string cell) : bool :=
  match truthy year_col, year filters with
  | Some yc, Some y => py_eq (cell_of r yc) y
  | _, _ => true
  end.

(** The records that one turn of the loop adds for the rows of a
    parsed chunk, and whether the chunk has the columns that the turn
    reads (a [KeyError] otherwise). *)
Definition kept_records (rs : list (gmap string cell))
  : list (gmap string cell) :=
  map clean_name
      (List.filter (fun r => named r
                             && (position_ok (clean_name r)
                                 && year_ok (clean_name r))) rs).
Definition columns_present (cols : list (string * dtype)) : bool :=
  in_list player_col (map fst cols)
  && match truthy position_col, positions filters with
     | Some pc, Some _ => in_list pc (map fst cols)
     | _, _ => true
     end
  && match truthy year_col, year filters with
     | Some yc, Some _ => in_list yc (map fst cols)
     | _, _ => true
     end.

(** Lines 156-178: the body of the loop for one chunk. *)
Definition chunk_step (st : loop_state) (chunk : frame)
  : option loop_state :=
  chunk ← clean chunk;
  chunk ← apply_filters chunk;
  Some {| all_data := (all_data st ++ rows chunk)%list;
          processed_rows :=
            processed_rows st + Z.of_nat (length (rows chunk));
          chunk_num := chunk_num st + 1 |}.

(** The [for chunk in pd.read_csv(..., chunksize=n)] loop: a window
    is read and parsed, then the body runs.  [fuel] bounds the
    number of windows. *)
Fixpoint chunks_loop (fuel n : nat) (header : list string)
         (evs : list event) (st : loop_state) : option loop_state :=
  match evs with
  | [] => Some st
  | _ :: _ =>
      match fuel with
      | O => None
      | S fuel' =>
          '(window, rest) ← next_window n evs;
          chunk ← parse_window columns_to_read header window;
          st' ← chunk_step st chunk;
          chunks_loop fuel' n header rest st'
      end
  end.

(** [extract_fantasy_data]: the records, or [None] when the [try]
    caught an exception.  [read_csv] itself raises on an empty
    file, on a chunk size below one and on columns that the header
    lacks; the last is what parsing an empty window checks. *)
Definition extract_fantasy_data (file : list event)
  : option (list (gmap string cell)) :=
  if chunk_size self <? 1 then None
  else
    match file with
    | Row header :: body =>
        _ ← parse_window columns_to_read header [];
        st ← chunks_loop (length body) (Z.to_nat (chunk_size self))
                         header body start;
        Some (all_data st)
    | _ => None
    end.

End Extract.
End Library.

End PandasCSV.


(* ===================================================================== *)
(** * The library with its defaults *)
(* ===================================================================== *)

(** The two library functions that the pandas processor is parameterised
    by, made concrete so that the processor can be run on a file:
    [repr] of a float, and [read_csv] (pandas 1.2 and later, C engine)
    with its default type inference on one window.  They describe the
    libraries, not this repository; [read_csv] is given on a stated part
    of its inputs, and says so on the others. *)
Module Defaults.
Import PyStr PyNum Py PandasCSV.

Definition string_of_nat_digits (z : Z) : string :=
  DecimalString.NilZero.string_of_int (Z.to_int z).

Fixpoint zeros (n : nat) : string :=
  match n with O => "" | S k => String "0" (zeros k) end.

Fixpoint strip_zeros_rev (ds : list ascii) : list ascii :=
  match ds with
  | c :: t => if Ascii.eqb c "0" then strip_zeros_rev t else ds
  | [] => []
  end.

(** [floor (num / (den * 10^s))] and whether the division is exact,
    is below, at or above the half. *)
Definition scaled (num den s : Z) : Z * comparison * bool :=
  let '(a, b) := if 0 <=? s then (num, den * 10 ^ s)
                 else (num * 10 ^ (- s), den) in
  (a / b, (2 * (a mod b)) ?= b, a mod b =? 0).

(** The largest [k] from [hi] downwards with [10^k <= num/den]. *)
Fixpoint log10_floor (fuel : nat) (k num den : Z) : Z :=
  match fuel with
  | O => k
  | S f =>
      let '(q, _, _) := scaled num den k in
      if 1 <=? q then k else log10_floor f (k - 1) num den
  end.

(** The shortest digit string that reads back as [x], and among those
    the one nearest to [x]: tried with 1, 2, ... 17 digits. *)
Fixpoint shortest (fuel : nat) (n : Z) (x : float) (num den k : Z)
  : Z * Z :=
  let s := k - n + 1 in
  let '(q, half, exact) := scaled num den s in
  let lo_ok := SFeqb (round_decimal false q s) x in
  let hi_ok := SFeqb (round_decimal false (q + 1) s) x in
  let pick_hi :=
    match half with
    | Lt => false
    | Gt => true
    | Eq => Z.odd q
    end in
  match fuel with
  | O => (if pick_hi then q + 1 else q, s)
  | S f =>
      if lo_ok && hi_ok then (if pick_hi then q + 1 else q, s)
      else if lo_ok then (q, s)
      else if hi_ok then (q + 1, s)
      else shortest f (n + 1) x num den k
  end.

(** [repr(x)], the format ['r']. *)
Definition float_repr (x : float) : string :=
  match x with
  | S754_nan => "nan"
  | S754_infinity s => if s then "-inf" else "inf"
  | S754_zero s => if s then "-0.0" else "0.0"
  | S754_finite sg m e =>
      let '(num, den) := if 0 <=? e then (Z.pos m * 2 ^ e, 1)
                         else (Z.pos m, 2 ^ (- e)) in
      let k := log10_floor 640 310 num den in
      let '(d, s) := shortest 16 1 (S754_finite false m e) num den k in
      let all := list_ascii_of_string (string_of_nat_digits d) in
      let digits := rev (strip_zeros_rev (rev all)) in
      let nd := length digits in
      let decpt := s + Z.of_nat (length all) in
      let body :=
        if (decpt <=? -4) || (16 <? decpt) then
          let ex := decpt - 1 in
          let mant :=
            match digits with
            | [] => ""
            | [c] => String c ""
            | c :: t => String c (String "." (string_of_list_ascii t))
            end in
          let exs := string_of_nat_digits (Z.abs ex) in
          mant ++ "e" ++ (if ex <? 0 then "-" else "+")
               ++ (if Z.abs ex <? 10 then "0" else "") ++ exs
        else if decpt <=? 0 then
          "0." ++ zeros (Z.to_nat (- decpt)) ++ string_of_list_ascii digits
        else if decpt <? Z.of_nat nd then
          string_of_list_ascii (firstn (Z.to_nat decpt) digits) ++ "."
          ++ string_of_list_ascii (skipn (Z.to_nat decpt) digits)
        else
          string_of_list_ascii digits
          ++ zeros (Z.to_nat (decpt - Z.of_nat nd)) ++ ".0" in
      (if sg then "-" else "") ++ body
  end.

(** The texts that [read_csv] reads as missing. *)
Definition na_values : list string :=
  [""; "#N/A"; "#N/A N/A"; "#NA"; "-1.#IND"; "-1.#QNAN"; "-NaN"; "-nan";
   "1.#IND"; "1.#QNAN"; "<NA>"; "N/A"; "NA"; "NULL"; "NaN"; "None";
   "n/a"; "nan"; "null"].
Definition true_values : list string := ["True"; "TRUE"; "true"].
Definition false_values : list string := ["False"; "FALSE"; "false"].

Definition is_na (s : string) : bool := in_list s na_values.

(** The white space that the parser's number readers skip before and
    after a number: space, tab, line feed, vertical tab, form feed and
    carriage return. *)
Definition c_isspace (c : ascii) : bool :=
  let n := code c in (n =? 32) || ((9 <=? n) && (n <=? 13)).

Fixpoint c_lstrip (s : string) : string :=
  match s with
  | EmptyString => EmptyString
  | String c t => if c_isspace c then c_lstrip t else s
  end.

Fixpoint c_rstrip (s : string) : string :=
  match s with
  | EmptyString => EmptyString
  | String c t =>
      let t' := c_rstrip t in
      if is_empty t' && c_isspace c then EmptyString else String c t'
  end.

Definition c_strip (s : string) : string := c_rstrip (c_lstrip s).

(** The longest prefix of digits, and the rest. *)
Fixpoint span_digits (s : string) : list ascii * string :=
  match s with
  | EmptyString => ([], EmptyString)
  | String c t =>
      if isdigit c then let '(ds, r) := span_digits t in (c :: ds, r)
      else ([], s)
  end.

(** The integer reader: an optional sign and digits, nothing else. *)
Definition int_field (s : string) : option Z :=
  let '(neg, r) := sign (c_strip s) in
  match span_digits r with
  | (d :: ds, EmptyString) =>
      let v := digits_value (d :: ds) in
      Some (if neg then - v else v)
  | _ => None
  end.

(** The integers that an [int64] column holds; [- 2^63] is left out,
    being the parser's own mark of a missing integer. *)
Definition in_int64 (z : Z) : bool := (- 2 ^ 63 <? z) && (z <? 2 ^ 63).

(** The spellings of infinity, compared without case. *)
Definition inf_field (s : string) : option float :=
  let w := lower s in
  if in_list w ["inf"; "+inf"; "infinity"; "+infinity"]
  then Some (S754_infinity false)
  else if in_list w ["-inf"; "-infinity"] then Some (S754_infinity true)
  else None.

(** The bounds within which the decimal reader is exact: the digits fit
    a double, and so does the power of ten, so that one rounded
    multiplication or division gives the double nearest to the
    decimal. *)
Definition max_exact_digits : nat := 15.
Definition max_exact_power : Z := 22.
Definition max_exponent_digits : nat := 9.

(** The decimal reader on one field: [None] when the field is no
    number, [Some None] when it is a number beyond the bounds above
    (what the library makes of it depends on its version and platform
    and is not modelled), [Some (Some x)] when it is read as [x]. *)
Definition float_field (s : string) : option (option float) :=
  match inf_field s with
  | Some x => Some (Some x)
  | None =>
      let '(neg, r) := sign (c_strip s) in
      let '(ip, r1) := span_digits r in
      let '(fp, r2) :=
        match r1 with
        | String c t => if Ascii.eqb c "." then span_digits t else ([], r1)
        | EmptyString => ([], r1)
        end in
      let finish (e : Z) (e_digits : nat) : option float :=
        let k := e - Z.of_nat (length fp) in
        if (length (ip ++ fp) <=? max_exact_digits)%nat
           && (e_digits <=? max_exponent_digits)%nat
           && (Z.abs k <=? max_exact_power)
        then Some (round_decimal neg (digits_value (ip ++ fp)%list) k)
        else None in
      match (ip ++ fp)%list with
      | [] => None
      | _ :: _ =>
          match r2 with
          | EmptyString => Some (finish 0 0%nat)
          | String c t =>
              if Ascii.eqb c "e" || Ascii.eqb c "E" then
                let '(eneg, r3) := sign t in
                match span_digits r3 with
                | (d :: ds, EmptyString) =>
                    let v := digits_value (d :: ds) in
                    Some (finish (if eneg then - v else v) (length (d :: ds)))
                | _ => None
                end
              else None
          end
      end
  end.

Definition to_bool (s : string) : option bool :=
  if in_list s true_values then Some true
  else if in_list s false_values then Some false
  else None.

Definition is_some {A} (o : option A) : bool :=
  match o with Some _ => true | None => false end.

(** The dtype of one column of one window and its cells: [int64] when
    every value is an integer and none is missing, else [float64] when
    every value present is a number, else [bool] or [object].  The
    result is [None] when the column is outside what is modelled: a
    column of integers with one outside [int64] (the library then tries
    [uint64] and text), a column of numbers with a decimal beyond the
    exact bounds. *)
Definition infer_column (raw : list string) : option (dtype * list cell) :=
  let present := List.filter (fun s => negb (is_na s)) raw in
  let has_na := existsb is_na raw in
  let cells (f : string -> cell) :=
    map (fun s => if is_na s then NaN else f s) raw in
  match raw with
  | [] => Some (object, [])
  | _ :: _ =>
      if negb has_na && forallb (fun s => is_some (int_field s)) present then
        if forallb (fun s => in_int64 (default 0 (int_field s))) present
        then Some (int64, cells (fun s => CInt (default 0 (int_field s))))
        else None
      else if forallb (fun s => is_some (float_field s)) present then
        if forallb (fun s => is_some (default None (float_field s))) present
        then Some (float64,
                   cells (fun s =>
                            CFloat (default S754_nan
                                            (default None (float_field s)))))
        else None
      else if forallb (fun s => is_some (to_bool s)) present then
        Some (if has_na then object else bool_,
              cells (fun s => CBool (default false (to_bool s))))
      else Some (object, cells CStr)
  end.

Fixpoint pad (n : nat) (row : list string) : list string :=
  match n with
  | O => []
  | S k => match row with
           | [] => "" :: pad k []
           | c :: t => c :: pad k t
           end
  end.

(** The selected columns of the header, each with its position. *)
Fixpoint selected (usecols header : list string) (i : nat)
  : list (string * nat) :=
  match header with
  | [] => []
  | h :: t =>
      if in_list h usecols then (h, i) :: selected usecols t (S i)
      else selected usecols t (S i)
  end.

Fixpoint no_dup (l : list string) : bool :=
  match l with
  | [] => true
  | h :: t => negb (in_list h t) && no_dup t
  end.

(** A line that the tokenizer passes over ([skip_blank_lines]): an empty
    line (the empty row of a reader), or one of spaces and tabs only.
    A line that holds one quoted empty field (a row of one empty field)
    is a record. *)
Definition blank_row (r : list string) : bool :=
  match r with
  | [] => true
  | [s] =>
      negb (is_empty s)
      && forallb (fun c => (code c =? 32) || (code c =? 9))
                 (list_ascii_of_string s)
  | _ :: _ :: _ => false
  end.

(** What [read_csv(usecols=...)] does on one window. *)
Inductive outcome : Type :=
| Frame (df : frame)   (** it returns this frame *)
| Raises               (** it raises *)
| Unmodelled.          (** the window is outside what is modelled *)

(** It raises when a selected column is not in the header.  Blank lines
    are passed over, short rows are filled with missing values, and the
    fields of a row beyond the header are not read (with [usecols] the
    tokenizer accepts such a row).  Outside the model: a header with a
    repeated name, which the library renames, and the columns that
    [infer_column] leaves out. *)
Definition read_csv (usecols header : list string)
           (window : list (list string)) : outcome :=
  if negb (no_dup header) then Unmodelled
  else if negb (forallb (fun c => in_list c header) usecols) then Raises
  else
    let records := List.filter (fun r => negb (blank_row r)) window in
    let padded := map (pad (length header)) records in
    match mapM (fun hi : string * nat =>
                  c ← infer_column (map (fun r => nth (snd hi) r "") padded);
                  Some (fst hi, c))
               (selected usecols header 0) with
    | Some cols =>
        Frame {| columns := map (fun c => (fst c, fst (snd c))) cols;
                 rows := map (fun j =>
                                list_to_map
                                  (map (fun c =>
                                          (fst c, nth j (snd (snd c)) NaN))
                                       cols))
                             (seq 0 (length records)) |}
    | None => Unmodelled
    end.

(** The parser that the processor is run with: the frame when there is
    one.  The processor cannot tell the two other outcomes apart (both
    end as its [None]); a result that is [Some] always comes from
    frames. *)
Definition read_csv_window (usecols header : list string)
           (window : list (list string)) : option frame :=
  match read_csv usecols header window with
  | Frame df => Some df
  | Raises | Unmodelled => None
  end.

(** The records of a file as the tokenizer yields them: the blank lines
    are no records, so they count in no chunk. *)
Definition tokenized (file : list event) : list event :=
  List.filter (fun ev => match ev with
                         | Row r => negb (blank_row r)
                         | Fault _ => true
                         end) file.

(** A first data row longer than the header, with fewer selected
    columns than the header has, makes the library take the leading
    fields as an index and shift the columns: outside the model. *)
Definition implicit_index (usecols : list string) (records : list event)
  : bool :=
  match records with
  | Row header :: Row first :: _ =>
      (length header <? length first)%nat
      && (length (remove_dups usecols) <? length header)%nat
  | _ => false
  end.

(** The extractor and the detector with the library as it is. *)
Definition extract_fantasy_data (self : processor) (player_col : string)
           (stat_cols : list string) (position_col team_col : option string)
           (filters : filters_t) (year_col : option string)
           (file : list event) : option (list (gmap string cell)) :=
  let records := tokenized file in
  if implicit_index (columns_to_read player_col stat_cols position_col
                                     team_col year_col) records
  then None
  else PandasCSV.extract_fantasy_data read_csv_window float_repr self
         player_col stat_cols position_col team_col filters year_col records.
Definition column_role := PandasCSV.column_role float_repr.

End Defaults.


(* ===================================================================== *)
(** * The specification's wording, for comparison *)
(* ===================================================================== *)

Module Spec.
Import PyStr PyNum Py.

(** The conversion chain as the specification words it: an integer
    parse, on failure a float parse, on failure the text. *)
Definition spec_coerce (v : string) : LargeCSV.value :=
  match py_int v with
  | Some z => LargeCSV.VInt z
  | None =>
      match py_float v with
      | Some x => LargeCSV.VFloat x
      | None => LargeCSV.VStr v
      end
  end.

(** "Contains an internal space": a space that is neither the first
    nor the last character. *)
Definition has_internal_space (v : string) : bool :=
  match v with
  | EmptyString => false
  | String _ t =>
      match rev (list_ascii_of_string t) with
      | [] => false
      | _ :: inner => existsb (Ascii.eqb " ") inner
      end
  end.

(** "A majority of the non-empty sample values contain an internal
    space". *)
Definition majority_internal_space (sample : list string) : bool :=
  let non_empty := List.filter (fun v => negb (is_empty v)) sample in
  (length non_empty
   <? 2 * length (List.filter has_internal_space non_empty))%nat.

End Spec.

(* ===================================================================== *)
(** * Sample inputs *)
(* ===================================================================== *)

Module Samples.
Import Py.

Definition roster_header : list string := ["name"; "team"; "points"].

(** A processor after [analyze_file] has read that header. *)
Definition roster : LargeCSV.processor :=
  {| LargeCSV.headers := roster_header; LargeCSV.row_count := 3;
     LargeCSV.chunk_size := 10000 |}.

(** The three-row scenario of the specification. *)
Definition roster_file : LargeCSV.csv_file :=
  {| LargeCSV.reader :=
       [Row roster_header;
        Row ["Alice"; "NYG"; "10.5"];
        Row [""; "BUF"; "5"];
        Row ["Alice"; "NYG"; "12"]];
     LargeCSV.raw_lines := Ok 4 |}.

(** A good header, then a line that the reader rejects. *)
Definition header_then_fault : LargeCSV.csv_file :=
  {| LargeCSV.reader := [Row roster_header; Fault CsvError];
     LargeCSV.raw_lines := Ok 2 |}.

(** One good row, then the disk fails; and the disk failing at once. *)
Definition fails_after_alice : list event :=
  [Row roster_header; Row ["Alice Smith"; "NYG"; "10.5"]; Fault OSError].
Definition fails_at_once : list event :=
  [Row roster_header; Fault OSError].

Definition as_file (evs : list event) : LargeCSV.csv_file :=
  {| LargeCSV.reader := evs;
     LargeCSV.raw_lines := Ok (Z.of_nat (length evs)) |}.

(** Inputs of the pandas processor. *)
Definition no_filters : PandasCSV.filters_t :=
  {| PandasCSV.positions := None; PandasCSV.year := None |}.
Definition only_qb : PandasCSV.filters_t :=
  {| PandasCSV.positions := Some ["QB"]; PandasCSV.year := None |}.

Definition same_name_twice : list event :=
  [Row ["name"; "pts"]; Row ["A B"; "1"]; Row ["A B"; "2"]].
Definition number_then_text : list event :=
  [Row ["name"; "pts"]; Row ["A B"; "1"]; Row ["C D"; "x"]].
Definition padded_position : list event :=
  [Row ["name"; "pos"]; Row ["A B"; " QB"]].

(** A sample in which one value of three looks like a full name. *)
Definition one_name_sample : PandasCSV.frame :=
  {| PandasCSV.columns := [("player_name", PandasCSV.object)];
     PandasCSV.rows :=
       [ {[ "player_name" := PandasCSV.CStr "A B" ]};
         {[ "player_name" := PandasCSV.CStr "x" ]};
         {[ "player_name" := PandasCSV.CStr "y" ]} ] |}.
Definition one_name_processor : PandasCSV.processor :=
  {| PandasCSV.chunk_size := 50000; PandasCSV.headers := ["player_name"];
     PandasCSV.total_rows := 3;
     PandasCSV.sample_data := Some one_name_sample |}.

(** A parsed chunk with a position column. *)
Definition two_positions : PandasCSV.frame :=
  {| PandasCSV.columns := [("name", PandasCSV.object);
                           ("pos", PandasCSV.object)];
     PandasCSV.rows :=
       [ {[ "name" := PandasCSV.CStr " A B "; "pos" := PandasCSV.CStr "QB" ]};
         {[ "name" := PandasCSV.CStr "C D"; "pos" := PandasCSV.CStr "K" ]} ] |}.

(** The same chunk without the row that the filter on [QB] drops. *)
Definition one_position : PandasCSV.frame :=
  {| PandasCSV.columns := [("name", PandasCSV.object);
                           ("pos", PandasCSV.object)];
     PandasCSV.rows :=
       [ {[ "name" := PandasCSV.CStr " A B "; "pos" := PandasCSV.CStr "QB" ]} ] |}.

(** The first values of a column called [player_name]. *)
Definition one_full_name : list PandasCSV.cell :=
  [PandasCSV.CStr "A B"; PandasCSV.CStr "x"; PandasCSV.CStr "y"].

End Samples.

(* ===================================================================== *)
(** * The rest of the two files: detection by name and the prompts *)
(* ===================================================================== *)

(** What the operator types is the list of the lines that [input] returns,
    in order; [None] stands for [input] raising at the end of the input
    (or, in the pandas file, for an exception of the detection). *)
Module Prompt.
Import PyStr PyNum Py.

(** [s.split(sep)] for a separator of one character. *)
Fixpoint split_on (sep : ascii) (s : string) : list string :=
  match s with
  | EmptyString => [EmptyString]
  | String c t =>
      if Ascii.eqb c sep then EmptyString :: split_on sep t
      else match split_on sep t with
           | w :: ws => String c w :: ws
           | [] => [String c EmptyString]
           end
  end.

(** [[int(x.strip()) - 1 for x in text.split(',')]]; [None] is the
    [ValueError] of the first piece that is no integer. *)
Definition parse_indices (text : string) : option (list Z) :=
  mapM (fun x => (fun v => v - 1) <$> py_int (strip x)) (split_on "," text).

(** [enumerate(l)] *)
Fixpoint enumerate_from {A} (i : Z) (l : list A) : list (Z * A) :=
  match l with
  | [] => []
  | a :: t => (i, a) :: enumerate_from (i + 1) t
  end.

End Prompt.

Module LargeCSVPrompt.
Import PyStr PyNum Py LargeCSV Prompt.

Definition player_keywords : list string := ["name"; "player"; "full_name"].
Definition stat_keywords : list string :=
  ["fantasy"; "points"; "yards"; "touchdown"; "td"; "reception"; "target";
   "rush"; "pass"; "adp"; "rank"; "projection"; "actual"].

(** [find_player_columns]: the pairs of index and header whose lower-cased
    header holds a player keyword, and those whose header holds a stat
    keyword. *)
Definition find_player_columns (self : processor)
  : list (Z * string) * list (Z * string) :=
  let numbered := enumerate_from 0 (headers self) in
  (List.filter (fun ih => any_keyword_in player_keywords (lower (snd ih)))
               numbered,
   List.filter (fun ih => any_keyword_in stat_keywords (lower (snd ih)))
               numbered).

(** Lines 162-172: ask until the answer is a number of a column. *)
Fixpoint ask_player_col (self : processor) (answers : list string)
  : option (Z * list string) :=
  match answers with
  | [] => None
  | player_col :: rest =>
      match py_int player_col with
      | Some v =>
          let player_col_idx := v - 1 in
          if (0 <=? player_col_idx)
             && (player_col_idx <? Z.of_nat (length (headers self)))
          then Some (player_col_idx, rest)
          else ask_player_col self rest
      | None => ask_player_col self rest
      end
  end.

(** [interactive_column_selection]: the player index and the stat
    indices. *)
Definition interactive_column_selection (self : processor)
           (answers : list string) : option (Z * list Z) :=
  match ask_player_col self answers with
  | None => None
  | Some (player_col_idx, rest) =>
      match rest with
      | [] => None
      | answer :: _ =>
          let stat_input := strip answer in
          let auto := map fst (snd (find_player_columns self)) in
          if String.eqb (lower stat_input) "auto" then
            Some (player_col_idx, auto)
          else
            match parse_indices stat_input with
            | Some stat_col_indices => Some (player_col_idx, stat_col_indices)
            | None => Some (player_col_idx, auto)
            end
      end
  end.

End LargeCSVPrompt.

Module PandasPrompt.
Import PyStr PyNum Py PandasCSV Prompt.

(** [analyze_file_structure], given what [read_csv(nrows=1000)] returned
    ([None] when it raised) and what the counting loop gave ([None] when
    it raised, which only prints a warning). *)
Definition analyze_file_structure (sample : option frame) (count : option Z)
           (self : processor) : bool * processor :=
  match sample with
  | None => (false, self)
  | Some sample_df =>
      (true,
       {| chunk_size := chunk_size self;
          headers := map fst (columns sample_df);
          total_rows := match count with
                        | Some n => n
                        | None => total_rows self
                        end;
          sample_data := Some sample_df |})
  end.

(** Lines 271-287: the stat columns that the operator selects among the
    detected ones, and the answers left. *)
Definition select_stat_cols (stat_cols : list string) (answers : list string)
  : option (list string * list string) :=
  match answers with
  | [] => None
  | answer :: rest =>
      let use_all := lower (strip answer) in
      if String.eqb use_all "y" then Some (stat_cols, rest)
      else
        match rest with
        | [] => None
        | answer' :: rest' =>
            let selection := strip answer' in
            if String.eqb (lower selection) "all" then Some (stat_cols, rest')
            else
              match parse_indices selection with
              | Some indices =>
                  Some (flat_map
                          (fun i =>
                             if (0 <=? i) && (i <? Z.of_nat (length stat_cols))
                             then match nth_error stat_cols (Z.to_nat i) with
                                  | Some c => [c]
                                  | None => []
                                  end
                             else [])
                          indices,
                        rest')
              | None => Some (stat_cols, rest')
              end
        end
  end.

(** Lines 291-296: the filters that the operator sets. *)
Definition ask_filters (position_col : option string) (answers : list string)
  : option filters_t :=
  match truthy position_col with
  | None => Some {| positions := None; year := None |}
  | Some _ =>
      match answers with
      | [] => None
      | answer :: _ =>
          let filter_pos := strip answer in
          if is_empty filter_pos
          then Some {| positions := None; year := None |}
          else Some {| positions := Some (map strip (split_on "," filter_pos));
                       year := None |}
      end
  end.

(** [interactive_setup]: the player column, the stat columns, the
    position and the team column, the filters. *)
Definition interactive_setup (float_repr : float -> string)
           (self : processor) (answers : list string)
  : option (string * list string * option string * option string * filters_t) :=
  '(player_cols, stat_cols, pos_cols, team_cols) ←
     detect_player_columns float_repr self;
  '(player_col, answers1) ←
     match player_cols with
     | [c] => Some (c, answers)
     | c :: _ =>
         match answers with
         | [] => None
         | a :: rest => Some (if is_empty (strip a) then c else strip a, rest)
         end
     | [] =>
         match answers with
         | [] => None
         | a :: rest => Some (strip a, rest)
         end
     end;
  let position_col := head pos_cols in
  let team_col := head team_cols in
  '(selected_stat_cols, answers2) ← select_stat_cols stat_cols answers1;
  filters ← ask_filters position_col answers2;
  Some (player_col, selected_stat_cols, position_col, team_col, filters).

End PandasPrompt.

(** Inputs for the examples of the later sections. *)
Module MoreSamples.
Import Py.

Definition qb_or_rb : PandasCSV.filters_t :=
  {| PandasCSV.positions := Some ["QB"; "RB"]; PandasCSV.year := None |}.

Definition three_players : list event :=
  [Row ["name"; "pos"];
   Row ["A B"; "QB"]; Row ["C D"; "RB"]; Row ["E F"; "K"]].

(** A sample whose columns fall in three of the four lists. *)
Definition mixed_sample : PandasCSV.frame :=
  {| PandasCSV.columns := [("player_name", PandasCSV.object);
                           ("pos", PandasCSV.object);
                           ("pts", PandasCSV.int64)];
     PandasCSV.rows :=
       [ {[ "player_name" := PandasCSV.CStr "A B";
            "pos" := PandasCSV.CStr "QB"; "pts" := PandasCSV.CInt 7 ]} ] |}.

End MoreSamples.

(* ===================================================================== *)
(** * Strings and numbers: lemmas *)
(* ===================================================================== *)

Module StrFacts.
Import PyStr PyNum.

Lemma contains_char c s : contains (String c "") s = has_char c s.
Proof.
  induction s as [|d t IH]; simpl; [reflexivity|].
  rewrite IH. destruct (Ascii.ascii_dec c d) as [->|Hne].
  - destruct (Ascii.eqb d d) eqn:E; [|rewrite Ascii.eqb_refl in E; discriminate].
    destruct t; reflexivity.
  - destruct (Ascii.ascii_dec c d) as [|_]; [contradiction|].
    apply Ascii.eqb_neq in Hne. rewrite Hne. reflexivity.
Qed.

Lemma has_char_lstrip c s :
  isspace c = false -> has_char c (lstrip s) = has_char c s.
Proof.
  intros Hc. induction s as [|d t IH]; simpl; [reflexivity|].
  destruct (isspace d) eqn:Hd; [|reflexivity].
  rewrite IH. destruct (Ascii.eqb c d) eqn:E; [|reflexivity].
  apply Ascii.eqb_eq in E. congruence.
Qed.

Lemma rstrip_empty_no_char c s :
  isspace c = false -> is_empty (rstrip s) = true -> has_char c s = false.
Proof.
  intros Hc. induction s as [|d t IH]; simpl; [reflexivity|].
  destruct (is_empty (rstrip t)) eqn:Et; simpl; [|discriminate].
  destruct (isspace d) eqn:Hd; simpl; [|discriminate].
  intros _. rewrite IH by reflexivity.
  destruct (Ascii.eqb c d) eqn:E; [|reflexivity].
  apply Ascii.eqb_eq in E. congruence.
Qed.

Lemma has_char_rstrip c s :
  isspace c = false -> has_char c (rstrip s) = has_char c s.
Proof.
  intros Hc. induction s as [|d t IH]; simpl; [reflexivity|].
  destruct (is_empty (rstrip t) && isspace d) eqn:E; simpl.
  - apply andb_true_iff in E as [Et Hd].
    rewrite (rstrip_empty_no_char c t Hc Et).
    destruct (Ascii.eqb c d) eqn:Ecd; [|reflexivity].
    apply Ascii.eqb_eq in Ecd. congruence.
  - rewrite IH. reflexivity.
Qed.

Lemma has_char_strip c s :
  isspace c = false -> has_char c (strip s) = has_char c s.
Proof.
  intros Hc. unfold strip.
  rewrite has_char_rstrip, has_char_lstrip by assumption. reflexivity.
Qed.

(** A digit part that takes the whole text leaves no room for a
    character that is neither a digit nor an underscore. *)
Lemma digits_from_all c s ds :
  isdigit c = false -> Ascii.eqb c "_" = false ->
  digits_from s = (ds, EmptyString) -> has_char c s = false.
Proof.
  intros Hd Hu. revert ds.
  induction s as [|d t IH]; intros ds; simpl; [reflexivity|].
  destruct (isdigit d) eqn:Ed.
  - destruct (digits_from t) as [ds' r] eqn:Et. intros [= <- ->].
    rewrite (IH ds' eq_refl).
    destruct (Ascii.eqb c d) eqn:E; [|reflexivity].
    apply Ascii.eqb_eq in E. congruence.
  - destruct (Ascii.eqb d "_") eqn:Eu; [|discriminate].
    destruct t as [|d' t']; [discriminate|].
    destruct (isdigit d') eqn:Ed'; [|discriminate].
    intros H. rewrite (IH ds H).
    apply Ascii.eqb_eq in Eu. subst d. rewrite Hu. reflexivity.
Qed.

Lemma digitpart_all c s ds :
  isdigit c = false -> Ascii.eqb c "_" = false ->
  digitpart s = (ds, EmptyString) -> has_char c s = false.
Proof.
  intros Hd Hu. unfold digitpart. destruct s as [|d t]; [reflexivity|].
  destruct (isdigit d) eqn:Ed.
  - apply digits_from_all; assumption.
  - discriminate.
Qed.

(** [int] never accepts a text with a dot. *)
Lemma py_int_dot v : contains "." v = true -> py_int v = None.
Proof.
  rewrite contains_char. intros Hdot. unfold py_int.
  rewrite <- (has_char_strip "." v) in Hdot by reflexivity.
  destruct (sign (strip v)) as [neg r] eqn:Es.
  destruct (digitpart r) as [[|d ds] rest] eqn:Ed; [reflexivity|].
  destruct rest; [|reflexivity].
  destruct (Z.of_nat (length (d :: ds)) <=? max_str_digits); [|reflexivity].
  apply (digitpart_all ".") in Ed; [|reflexivity..].
  unfold sign in Es. destruct (strip v) as [|c t]; [discriminate|].
  simpl in Hdot.
  destruct (Ascii.eqb c "-") eqn:E1; [|destruct (Ascii.eqb c "+") eqn:E2].
  - injection Es as _ <-. apply Ascii.eqb_eq in E1. subst c.
    simpl in Hdot. congruence.
  - injection Es as _ <-. apply Ascii.eqb_eq in E2. subst c.
    simpl in Hdot. congruence.
  - injection Es as _ <-. simpl in Ed. congruence.
Qed.


End StrFacts.

(* ===================================================================== *)
(** * The conversion chain (lines 121-128) *)
(* ===================================================================== *)

Module CoerceFacts.
Import PyStr PyNum Py LargeCSV Spec StrFacts.

(** C2, as stated, fails on a number in exponent notation without a
    dot: the chain of the specification reads it as the float 100000.0,
    the code keeps the text. *)
Lemma coerce_exponent_kept_as_text :
  strip "1e5" = "1e5"
  /\ spec_coerce "1e5" = VFloat (binary_normalize prec emax 100000 0 false)
  /\ coerce "1e5" = VStr "1e5".
Proof. repeat split; vm_compute; reflexivity. Qed.

(** C2 (amended).  The conversion picks its parser by the dot: with a
    dot in the trimmed text it tries [float], without it tries [int],
    and in both cases keeps the trimmed text when the parse fails; it
    is a total function (no input raises).  It differs from the chain
    integer, float, text exactly on the texts without a dot that are no
    integer but are a float.  "17" is the integer 17, "12.5" the float
    25 * 2^-1, "N/A" the text. *)
Theorem coerce_by_dot (cell : string) :
  let v := strip cell in
  (coerce v = if contains "." v
              then from_option VFloat (VStr v) (py_float v)
              else from_option VInt (VStr v) (py_int v))
  /\ (coerce v = spec_coerce v
      <-> ~ (contains "." v = false /\ py_int v = None
             /\ py_float v <> None))
  /\ coerce (strip "17") = VInt 17
  /\ coerce (strip "12.5") = VFloat (binary_normalize prec emax 25 (-1) false)
  /\ coerce (strip "N/A") = VStr "N/A".
Proof.
  intros v. split; [|split].
  - unfold coerce. destruct (contains "." v).
    + destruct (py_float v); reflexivity.
    + destruct (py_int v); reflexivity.
  - unfold coerce, spec_coerce.
    destruct (contains "." v) eqn:Hdot.
    + rewrite (py_int_dot v Hdot). split; [|reflexivity].
      intros _ [H _]. discriminate.
    + destruct (py_int v) as [z|] eqn:Hint.
      * split; [|reflexivity]. intros _ (_ & H & _). discriminate.
      * destruct (py_float v) as [x|] eqn:Hfl.
        -- split; [discriminate|]. intros H. exfalso. apply H.
           repeat split. discriminate.
        -- split; [|reflexivity]. intros _ (_ & _ & H). congruence.
  - repeat split; vm_compute; reflexivity.
Qed.

End CoerceFacts.

(* ===================================================================== *)
(** * [LargeCSVProcessor.extract_player_data]: the loop *)
(* ===================================================================== *)

Module LargeCSVFacts.
Import PyStr PyNum Py LargeCSV StrFacts.

Lemma lstrip_head s :
  lstrip s = EmptyString
  \/ exists c t, lstrip s = String c t /\ isspace c = false.
Proof.
  induction s as [|c t IH]; simpl; [left; reflexivity|].
  destruct (isspace c) eqn:E; [exact IH|]. right. eauto.
Qed.

Lemma rstrip_idem s : rstrip (rstrip s) = rstrip s.
Proof.
  induction s as [|c t IH]; simpl; [reflexivity|].
  destruct (is_empty (rstrip t) && isspace c) eqn:E; simpl; [reflexivity|].
  rewrite IH, E. reflexivity.
Qed.

(** A trimmed text is unchanged by trimming. *)
Lemma strip_idem s : strip (strip s) = strip s.
Proof.
  unfold strip. destruct (lstrip_head s) as [->|(c & t & -> & Hc)].
  - reflexivity.
  - simpl. rewrite Hc, andb_false_r. simpl. rewrite Hc.
    simpl. rewrite rstrip_idem, Hc, andb_false_r. reflexivity.
Qed.

Lemma fold_max_ge t : forall x y,
  y = x \/ In y t -> y <= fold_left Z.max t x.
Proof.
  induction t as [|a t IH]; intros x y [->|H]; simpl.
  - lia.
  - destruct H.
  - transitivity (Z.max x a); [lia|]. apply IH. left. reflexivity.
  - destruct H as [->|H].
    + transitivity (Z.max x y); [lia|]. apply IH. left. reflexivity.
    + apply IH. right. assumption.
Qed.

Lemma max_default_ge stats d i : In i stats -> i <= py_max_default stats d.
Proof.
  destruct stats as [|x t]; [intros []|]. intros [->|H]; simpl.
  - apply fold_max_ge. left. reflexivity.
  - apply fold_max_ge. right. assumption.
Qed.

Section Loop.
Variable self : processor.
Variable p : Z.
Variable stats : list Z.

Lemma row_step_extracted st row :
  row_step self p stats st row
  = (r <- extracted self p stats row ;;
     Ok match r with
        | None => st
        | Some (k, attrs) =>
            {| players_data := <[k := attrs]> (players_data st);
               processed_rows := processed_rows st + 1 |}
        end).
Proof.
  unfold row_step, extracted. destruct (too_short p stats row); [reflexivity|].
  destruct (py_index row p) as [cell|e]; simpl; [|reflexivity].
  destruct (is_empty (strip cell)); [reflexivity|].
  destruct (build_stats self stats row (strip cell)); reflexivity.
Qed.

Lemma rows_loop_app evs1 evs2 st :
  Forall (fun ev => is_row ev = true) evs1 ->
  rows_loop self p stats (evs1 ++ evs2)%list st
  = (st' <- rows_loop self p stats evs1 st ;;
     rows_loop self p stats evs2 st').
Proof.
  intros H. revert st. induction H as [|ev evs1 Hev _ IH]; intros st.
  - reflexivity.
  - destruct ev as [row|e]; [|discriminate]. simpl.
    destruct (row_step self p stats st row); simpl; [apply IH|reflexivity].
Qed.

(** A loop that ends normally met no fault. *)
Lemma rows_loop_ok_rows evs : forall st st',
  rows_loop self p stats evs st = Ok st' ->
  Forall (fun ev => is_row ev = true) evs.
Proof.
  induction evs as [|[row|e] evs IH]; intros st st'; simpl.
  - constructor.
  - destruct (row_step self p stats st row) as [st1|]; simpl; [|discriminate].
    intros H. constructor; [reflexivity|]. eapply IH, H.
  - discriminate.
Qed.

(** The rows that do not yield the key [k] leave its entry alone. *)
Lemma rows_loop_other_keys k evs : forall st st',
  rows_loop self p stats evs st = Ok st' ->
  (forall row attrs, In (Row row) evs ->
                     extracted self p stats row <> Ok (Some (k, attrs))) ->
  players_data st' !! k = players_data st !! k.
Proof.
  induction evs as [|[row|e] evs IH]; intros st st'; simpl.
  - intros [= ->] _. reflexivity.
  - rewrite row_step_extracted.
    destruct (extracted self p stats row) as [r|] eqn:Er; simpl; [|discriminate].
    intros Hloop Hno. rewrite (IH _ _ Hloop).
    + destruct r as [[k' attrs]|]; simpl; [|reflexivity].
      apply lookup_insert_ne. intros ->.
      apply (Hno row attrs); [left; reflexivity|assumption].
    + intros row' attrs' Hin. apply Hno. right. assumption.
  - discriminate.
Qed.

(** Past the guard of line 107 every selected index is within the
    row. *)
Lemma not_too_short_bound row i :
  too_short p stats row = false -> In i stats ->
  (i <? Z.of_nat (length row)) = true.
Proof.
  unfold too_short. intros H Hin. apply Z.leb_gt in H.
  apply Z.ltb_lt. pose proof (max_default_ge stats 0 i Hin). lia.
Qed.

(** The attributes built for a row hold what they held at the start
    and the header name of each index passed through. *)
Lemma for_each_stats_keys row : forall idxs (attrs0 attrs : record),
  (forall i, In i idxs -> (i <? Z.of_nat (length row)) = true) ->
  for_each (stat_step self row) idxs attrs0 = Ok attrs ->
  (forall key, is_Some (attrs0 !! key) -> is_Some (attrs !! key))
  /\ (forall i, In i idxs ->
        exists h, py_index (headers self) i = Ok h /\ is_Some (attrs !! h)).
Proof.
  induction idxs as [|i idxs IH]; intros attrs0 attrs Hb; simpl.
  - intros [= ->]. split; [auto|intros i []].
  - unfold stat_step at 1. rewrite (Hb i) by (left; reflexivity).
    destruct (py_index (headers self) i) as [h|] eqn:Eh; simpl; [|discriminate].
    destruct (py_index row i) as [cell|] eqn:Ec; simpl; [|discriminate].
    intros Hrest.
    destruct (IH _ _ (fun j Hj => Hb j (or_intror Hj)) Hrest) as [Hkeep Hidx].
    split.
    + intros key Hkey. apply Hkeep.
      destruct (decide (h = key)) as [->|Hne].
      * rewrite lookup_insert_eq. eauto.
      * rewrite lookup_insert_ne by assumption. assumption.
    + intros j [->|Hj]; [|apply Hidx; assumption].
      exists h. split; [assumption|]. apply Hkeep.
      rewrite lookup_insert_eq. eauto.
Qed.

Lemma extracted_complete row k attrs :
  extracted self p stats row = Ok (Some (k, attrs)) ->
  is_Some (attrs !! "name")
  /\ (forall i, In i stats ->
        exists h, py_index (headers self) i = Ok h /\ is_Some (attrs !! h)).
Proof.
  unfold extracted. destruct (too_short p stats row) eqn:Ets; [discriminate|].
  destruct (py_index row p) as [cell|]; simpl; [|discriminate].
  destruct (is_empty (strip cell)); [discriminate|].
  destruct (build_stats self stats row (strip cell)) as [a|] eqn:Eb;
    simpl; [|discriminate].
  intros [= <- <-]. unfold build_stats in Eb.
  apply for_each_stats_keys in Eb as [Hkeep Hidx].
  - split; [|assumption]. apply Hkeep. rewrite lookup_singleton_eq. eauto.
  - intros i Hi. apply not_too_short_bound; assumption.
Qed.

(** Every record of the table comes from a row of the file. *)
Lemma rows_loop_records evs : forall st st' k attrs,
  rows_loop self p stats evs st = Ok st' ->
  players_data st' !! k = Some attrs ->
  players_data st !! k = Some attrs
  \/ exists row, In (Row row) evs
                 /\ extracted self p stats row = Ok (Some (k, attrs)).
Proof.
  induction evs as [|[row|e] evs IH]; intros st st' k attrs; simpl.
  - intros [= ->] H. left. assumption.
  - rewrite row_step_extracted.
    destruct (extracted self p stats row) as [r|] eqn:Er; simpl; [|discriminate].
    intros Hloop Hk.
    destruct (IH _ _ _ _ Hloop Hk) as [H|(row' & Hin & Hrow')].
    + destruct r as [[k' attrs']|]; simpl in H.
      * destruct (decide (k' = k)) as [->|Hne].
        -- rewrite lookup_insert_eq in H. injection H as ->.
           right. exists row. split; [left; reflexivity|assumption].
        -- rewrite lookup_insert_ne in H by assumption. left. assumption.
      * left. assumption.
    + right. exists row'. split; [right; assumption|assumption].
  - discriminate.
Qed.

Lemma py_index_in_range {A} (l : list A) i :
  0 <= i < Z.of_nat (length l) -> exists a, py_index l i = Ok a.
Proof.
  intros H. unfold py_index.
  destruct (i <? 0) eqn:E; [apply Z.ltb_lt in E; lia|].
  replace ((0 <=? i) && (i <? Z.of_nat (length l))) with true
    by (symmetry; apply andb_true_iff; split;
        [apply Z.leb_le|apply Z.ltb_lt]; lia).
  destruct (nth_error l (Z.to_nat i)) as [a|] eqn:En; [eauto|].
  apply nth_error_None in En. lia.
Qed.

(** With the selected indices within the header, no row makes the loop
    raise: a file that is read without a fault gives a table. *)
Lemma rows_loop_total :
  0 <= p ->
  Forall (fun i => 0 <= i < Z.of_nat (length (headers self))) stats ->
  forall evs st,
    Forall (fun ev => is_row ev = true) evs ->
    exists st', rows_loop self p stats evs st = Ok st'.
Proof.
  intros Hp Hstats evs. induction evs as [|[row|e] evs IH]; intros st Hrows.
  - simpl. eauto.
  - apply Forall_cons in Hrows as [_ Hrows]. simpl.
    assert (Hstep : exists st1, row_step self p stats st row = Ok st1).
    { unfold row_step. destruct (too_short p stats row) eqn:Ets; [eauto|].
      assert (Hlen : p < Z.of_nat (length row))
        by (unfold too_short in Ets; apply Z.leb_gt in Ets; lia).
      destruct (py_index_in_range row p ltac:(lia)) as [cell ->]. simpl.
      destruct (is_empty (strip cell)); [eauto|].
      assert (Hb : forall idxs attrs0,
                 Forall (fun i => 0 <= i < Z.of_nat (length (headers self))
                                  /\ i < Z.of_nat (length row)) idxs ->
                 exists attrs,
                   for_each (stat_step self row) idxs attrs0 = Ok attrs).
      { induction idxs as [|i idxs IHi]; intros attrs0 Hi; simpl; [eauto|].
        apply Forall_cons in Hi as [[Hh Hr] Hi]. unfold stat_step at 1.
        replace (i <? Z.of_nat (length row)) with true
          by (symmetry; apply Z.ltb_lt; lia).
        destruct (py_index_in_range (headers self) i Hh) as [h ->].
        destruct (py_index_in_range row i ltac:(lia)) as [c ->]. simpl.
        apply IHi, Hi. }
      destruct (Hb stats {[ "name" := VStr (strip cell) ]}) as [attrs Ha].
      { rewrite Forall_forall in Hstats |- *. intros i Hi.
        split; [apply Hstats, Hi|].
        apply list_elem_of_In in Hi.
        apply Z.ltb_lt, not_too_short_bound; assumption. }
      unfold build_stats. rewrite Ha. simpl. eauto. }
    destruct Hstep as [st1 ->]. simpl. apply IH, Hrows.
  - apply Forall_cons in Hrows as [H _]. discriminate.
Qed.

End Loop.

End LargeCSVFacts.

(* ===================================================================== *)
(** * [LargeCSVProcessor]: the claims *)
(* ===================================================================== *)

Module LargeCSVClaims.
Import PyStr PyNum Py LargeCSV StrFacts LargeCSVFacts Samples.

(** C1 (amended), for the extractor that keeps a dict.  When
    [extract_player_data] returns, the table holds for a key exactly one
    record, and it is the record of the last row that yields the key,
    whole: whatever rows came before it, earlier rows with the same key
    among them, leave no attribute behind. *)
Theorem last_write_wins self p stats f header before row after k attrs table :
  reader f = (Row header :: before ++ Row row :: after)%list ->
  extracted self p stats row = Ok (Some (k, attrs)) ->
  (forall row' attrs', In (Row row') after ->
                       extracted self p stats row' <> Ok (Some (k, attrs'))) ->
  extract_player_data self p stats f = Ok table ->
  table !! k = Some attrs
  /\ (forall attrs', (k, attrs') ∈ map_to_list table -> attrs' = attrs)
  /\ NoDup (map_to_list table).*1.
Proof.
  intros Hf Hrow Hafter Hex.
  assert (Hk : table !! k = Some attrs).
  { unfold extract_player_data in Hex. rewrite Hf in Hex.
    destruct (py_index (headers self) p); simpl in Hex; [|discriminate].
    destruct (rows_loop self p stats (before ++ Row row :: after) start)
      as [st|] eqn:Hloop; simpl in Hex; [|discriminate].
    injection Hex as <-.
    pose proof (rows_loop_ok_rows _ _ _ _ _ _ Hloop) as Hrows.
    apply Forall_app in Hrows as [Hbefore _].
    rewrite rows_loop_app in Hloop by assumption.
    destruct (rows_loop self p stats before start) as [st1|]; simpl in Hloop;
      [|discriminate].
    rewrite row_step_extracted, Hrow in Hloop. simpl in Hloop.
    rewrite (rows_loop_other_keys _ _ _ k _ _ _ Hloop Hafter). simpl.
    apply lookup_insert_eq. }
  split; [assumption|]. split.
  - intros attrs' Hin. apply elem_of_map_to_list in Hin. congruence.
  - apply NoDup_fst_map_to_list.
Qed.

Lemma last_write_wins_witness :
  extract_player_data roster 0 [1; 2] roster_file
  = Ok {[ "Alice" := {[ "name" := VStr "Alice"; "team" := VStr "NYG";
                        "points" := VInt 12 ]} ]}
  /\ ({[ "Alice" := {[ "name" := VStr "Alice"; "team" := VStr "NYG";
                       "points" := VInt 12 ]} ]} : table) !! "Alice"
     = Some {[ "name" := VStr "Alice"; "team" := VStr "NYG";
               "points" := VInt 12 ]}.
Proof.
  assert (H : extract_player_data roster 0 [1; 2] roster_file
              = Ok {[ "Alice" := {[ "name" := VStr "Alice"; "team" := VStr "NYG";
                                    "points" := VInt 12 ]} ]})
    by (vm_compute; reflexivity).
  split; [exact H|].
  refine (proj1 (last_write_wins roster 0 [1; 2] roster_file roster_header
                   [Row ["Alice"; "NYG"; "10.5"]; Row [""; "BUF"; "5"]]
                   ["Alice"; "NYG"; "12"] [] "Alice" _ _ _ _ _ H)).
  - reflexivity.
  - vm_compute; reflexivity.
  - intros row' attrs' [].
Defined.

(** C10.  Every record of the table that [extract_player_data] returns
    has the key ['name'] and, for every selected index, the key of that
    column's header; for past the guard of line 107 the bounds check of
    line 117 holds for every selected index. *)
Theorem records_complete self p stats f table k attrs :
  extract_player_data self p stats f = Ok table ->
  table !! k = Some attrs ->
  is_Some (attrs !! "name")
  /\ (forall i, In i stats ->
        exists h, py_index (headers self) i = Ok h /\ is_Some (attrs !! h))
  /\ (forall row i, too_short p stats row = false -> In i stats ->
                    (i <? Z.of_nat (length row)) = true).
Proof.
  intros Hex Hk. unfold extract_player_data in Hex.
  destruct (py_index (headers self) p); simpl in Hex; [|discriminate].
  destruct (reader f) as [|[h|e] rest]; try discriminate.
  destruct (rows_loop self p stats rest start) as [st|] eqn:Hloop;
    simpl in Hex; [|discriminate].
  injection Hex as <-.
  destruct (rows_loop_records _ _ _ _ _ _ _ _ Hloop Hk)
    as [H|(row & _ & Hrow)].
  - simpl in H. rewrite lookup_empty in H. discriminate.
  - destruct (extracted_complete _ _ _ _ _ _ Hrow) as [Hname Hidx].
    split; [assumption|]. split; [assumption|].
    intros row' i. apply not_too_short_bound.
Qed.

Lemma records_complete_witness :
  is_Some (({[ "name" := VStr "Alice"; "team" := VStr "NYG";
               "points" := VInt 12 ]} : record) !! "name").
Proof.
  refine (proj1 (records_complete roster 0 [1; 2] roster_file
                   {[ "Alice" := {[ "name" := VStr "Alice";
                                    "team" := VStr "NYG";
                                    "points" := VInt 12 ]} ]}
                   "Alice" _ _ _)).
  - vm_compute; reflexivity.
  - vm_compute; reflexivity.
Defined.

(** C5, as stated, fails on its counter: a row too short for the
    selected columns leaves the loop state as it was, and the run over a
    file with such a row returns what the run over the file without it
    returns, a table and nothing else; no count of the row is kept. *)
Lemma short_row_not_counted :
  too_short 0 [1; 2] ["Bob"; "DAL"] = true
  /\ row_step roster 0 [1; 2] start ["Bob"; "DAL"] = Ok start
  /\ extract_player_data roster 0 [1; 2]
       (as_file [Row roster_header; Row ["Bob"; "DAL"]]) = Ok ∅
  /\ extract_player_data roster 0 [1; 2] (as_file [Row roster_header]) = Ok ∅.
Proof. repeat split. Qed.

(** C5 (amended).  A row with too few fields to reach the key column
    or some selected column is passed over: it yields nothing, the
    loop goes on with the next row, and the loop state, table and
    [processed_rows], is unchanged (the code keeps no count of such
    rows). *)
Theorem short_row_skipped self p stats st row rest :
  (Z.of_nat (length row) <= p
   \/ exists i, In i stats /\ Z.of_nat (length row) <= i) ->
  extracted self p stats row = Ok None
  /\ row_step self p stats st row = Ok st
  /\ rows_loop self p stats (Row row :: rest) st
     = rows_loop self p stats rest st.
Proof.
  intros H.
  assert (Hs : too_short p stats row = true).
  { unfold too_short. apply Z.leb_le. destruct H as [H|(i & Hi & H)].
    - lia.
    - pose proof (max_default_ge stats 0 i Hi). lia. }
  assert (Hrow : row_step self p stats st row = Ok st)
    by (unfold row_step; rewrite Hs; reflexivity).
  split; [unfold extracted; rewrite Hs; reflexivity|].
  split; [assumption|]. simpl. rewrite Hrow. reflexivity.
Qed.

Lemma short_row_skipped_witness :
  rows_loop roster 0 [1; 2] [Row ["Bob"; "DAL"]; Row ["Cy"; "SF"; "3"]] start
  = rows_loop roster 0 [1; 2] [Row ["Cy"; "SF"; "3"]] start.
Proof.
  refine (proj2 (proj2 (short_row_skipped roster 0 [1; 2] start
                          ["Bob"; "DAL"] [Row ["Cy"; "SF"; "3"]] _))).
  right. exists 2. split; [simpl; auto|simpl; lia].
Defined.

(** C9, as stated, fails on its second half: the header of this file
    is read, the line after it is rejected by the reader while the
    sample is printed, and the analysis reports failure. *)
Lemma valid_header_analysis_fails :
  reader header_then_fault = [Row roster_header; Fault CsvError]
  /\ fst (analyze_file header_then_fault init) = false
  /\ main (Some header_then_fault) (0, [1; 2]) = AnalysisFailed.
Proof. repeat split. Qed.

(** The sample loop meets no fault. *)
Lemma sampled_rows_no_fault (evs : list event) :
  forallb is_row evs = true <-> forall e, ~ In (Fault e) evs.
Proof.
  rewrite forallb_forall. split.
  - intros H e Hin. specialize (H _ Hin). discriminate.
  - intros H [r|e] Hin; [reflexivity|]. destruct (H e Hin).
Qed.

(** C9 (amended).  Without a first row, because the file is empty or
    because the reader rejects its first line, [analyze_file] returns
    [False] and leaves the processor as it was; whenever it returns
    [False], [main] returns before the extraction.  With a first row
    and no fault among the four reads of the sample loop, it returns
    [True] with that row as [headers]; with a fault at any of these
    four reads it returns [False], the header being kept in [headers];
    and these are the only ways for it to return [True] or [False]. *)
Theorem analyze_file_outcome (f : csv_file) (selection : Z * list Z) :
  ((reader f = [] \/ exists e rest, reader f = Fault e :: rest) ->
   analyze_file f init = (false, init))
  /\ (fst (analyze_file f init) = false ->
      main (Some f) selection = AnalysisFailed)
  /\ (forall h rest,
        reader f = Row h :: rest ->
        forallb is_row (firstn 4 rest) = true ->
        fst (analyze_file f init) = true
        /\ headers (snd (analyze_file f init)) = h)
  /\ (forall h rest e,
        reader f = Row h :: rest ->
        In (Fault e) (firstn 4 rest) ->
        analyze_file f init
        = (false, {| headers := h; row_count := row_count init;
                     chunk_size := chunk_size init |}))
  /\ (fst (analyze_file f init) = true
      <-> exists h rest,
            reader f = Row h :: rest
            /\ forall e, ~ In (Fault e) (firstn 4 rest)).
Proof.
  split; [|split; [|split; [|split]]].
  - unfold analyze_file. intros [->|(e & rest & ->)]; reflexivity.
  - unfold main. destruct (analyze_file f init) as [ok pr]. simpl.
    intros ->. reflexivity.
  - intros h rest Hf Hs. unfold analyze_file. rewrite Hf, Hs.
    destruct (raw_lines f); split; reflexivity.
  - intros h rest e Hf Hin. unfold analyze_file. rewrite Hf.
    destruct (forallb is_row (firstn 4 rest)) eqn:Hs; [|reflexivity].
    exfalso. apply (proj1 (sampled_rows_no_fault _) Hs e Hin).
  - unfold analyze_file. destruct (reader f) as [|[h|e] rest].
    + split; [discriminate|]. intros (h & rest & Hf & _). discriminate.
    + destruct (forallb is_row (firstn 4 rest)) eqn:Hs; simpl.
      * split; [|reflexivity]. intros _. exists h, rest.
        split; [reflexivity|]. apply sampled_rows_no_fault, Hs.
      * split; [discriminate|]. intros (h' & rest' & [= <- <-] & Hno).
        apply sampled_rows_no_fault in Hno. congruence.
    + split; [discriminate|]. intros (h & rest' & Hf & _). discriminate.
Qed.

End LargeCSVClaims.

(* ===================================================================== *)
(** * [PandasCSVProcessor.extract_fantasy_data]: the loop *)
(* ===================================================================== *)

Module PandasFacts.
Import PyStr PyNum Py PandasCSV StrFacts LargeCSVFacts.

Lemma filter_filter {A} (f g : A -> bool) l :
  List.filter f (List.filter g l) = List.filter (fun x => g x && f x) l.
Proof.
  induction l as [|a l IH]; simpl; [reflexivity|].
  destruct (g a); simpl; [|exact IH].
  destruct (f a); simpl; congruence.
Qed.

Lemma filter_map {A B} (f : B -> bool) (g : A -> B) l :
  List.filter f (map g l) = map g (List.filter (fun x => f (g x)) l).
Proof.
  induction l as [|a l IH]; simpl; [reflexivity|].
  destruct (f (g a)); simpl; congruence.
Qed.

Lemma filter_all {A} (l : list A) : List.filter (fun _ => true) l = l.
Proof. induction l as [|a l IH]; simpl; congruence. Qed.

Lemma is_empty_eqb s : String.eqb s "" = is_empty s.
Proof. destruct s; reflexivity. Qed.

(** A window that was read holds no fault, and the fault of the file is
    still ahead. *)
Lemma next_window_fault n : forall evs w rest e,
  next_window n evs = Some (w, rest) ->
  In (Fault e) evs -> In (Fault e) rest.
Proof.
  induction n as [|n IH]; intros evs w rest e; simpl.
  - intros [= <- <-]. auto.
  - destruct evs as [|[r|e'] evs]; simpl.
    + intros _ [].
    + destruct (next_window n evs) as [[w' rest']|] eqn:E; [|discriminate].
      intros [= <- <-] [H|H]; [discriminate|]. eapply IH; eassumption.
    + discriminate.
Qed.

Lemma next_window_shorter n : forall evs w rest,
  next_window (S n) evs = Some (w, rest) -> evs <> [] ->
  (length rest < length evs)%nat.
Proof.
  induction n as [|n IH]; intros evs w rest.
  - destruct evs as [|[r|e] evs]; simpl; try discriminate.
    + intros _ H. contradiction.
    + intros [= <- <-] _. lia.
  - destruct evs as [|[r|e] evs]; try discriminate.
    + intros _ H. contradiction.
    + change (next_window (S (S n)) (Row r :: evs))
        with (match next_window (S n) evs with
              | Some (w, rest') => Some (r :: w, rest')
              | None => None
              end).
      destruct (next_window (S n) evs) as [[w' rest']|] eqn:E; [|discriminate].
      intros [= <- <-] _. destruct evs as [|ev evs'].
      * simpl in E. injection E as <- <-. simpl. lia.
      * pose proof (IH _ _ _ E ltac:(discriminate)). simpl in *. lia.
Qed.

Section Run.
Variable parse_window :
  list string -> list string -> list (list string) -> option frame.
Variable float_repr : float -> string.
Variable self : processor.
Variable player_col : string.
Variable stat_cols : list string.
Variables position_col team_col : option string.
Variable filters : filters_t.
Variable year_col : option string.

Local Abbreviation step :=
  (chunk_step float_repr player_col position_col filters year_col).
Local Abbreviation loop :=
  (chunks_loop parse_window float_repr player_col stat_cols
               position_col team_col filters year_col).
Local Abbreviation name_text := (name_text float_repr player_col).
Local Abbreviation named := (named float_repr player_col).
Local Abbreviation position_ok := (position_ok position_col filters).
Local Abbreviation year_ok := (year_ok filters year_col).
Local Abbreviation clean_name := (clean_name float_repr player_col).
Local Abbreviation clean := (clean float_repr player_col).
Local Abbreviation apply_filters := (apply_filters position_col filters year_col).

Lemma clean_rows chunk chunk' :
  clean chunk = Some chunk' ->
  rows chunk'
  = map clean_name (List.filter named (rows chunk)).
Proof.
  unfold PandasCSV.clean. destruct (has_column chunk player_col); [|discriminate].
  intros [= <-]. simpl. rewrite filter_map, filter_filter.
  f_equal. apply filter_ext. intros r. unfold PandasCSV.named, PandasCSV.name_text, PandasCSV.clean_name.
  f_equal. unfold cell_of at 1. rewrite lookup_insert_eq. simpl.
  rewrite is_empty_eqb. reflexivity.
Qed.

Lemma filter_positions_rows chunk chunk' :
  filter_positions position_col filters chunk = Some chunk' ->
  rows chunk' = List.filter position_ok (rows chunk).
Proof.
  unfold filter_positions, PandasCSV.position_ok.
  destruct (truthy position_col) as [pc|], (positions filters) as [acc|];
    try (intros [= <-]; symmetry; apply filter_all).
  destruct (has_column chunk pc); [|discriminate].
  intros [= <-]. reflexivity.
Qed.

Lemma filter_year_rows chunk chunk' :
  filter_year filters year_col chunk = Some chunk' ->
  rows chunk' = List.filter year_ok (rows chunk).
Proof.
  unfold filter_year, PandasCSV.year_ok.
  destruct (truthy year_col) as [yc|], (year filters) as [y|];
    try (intros [= <-]; symmetry; apply filter_all).
  destruct (has_column chunk yc); [|discriminate].
  intros [= <-]. reflexivity.
Qed.

Lemma apply_filters_rows chunk chunk' :
  apply_filters chunk = Some chunk' ->
  rows chunk'
  = List.filter (fun r => position_ok r && year_ok r) (rows chunk).
Proof.
  unfold PandasCSV.apply_filters.
  destruct (filter_positions position_col filters chunk) as [c1|] eqn:E1;
    simpl; [|discriminate].
  intros E2. rewrite (filter_year_rows _ _ E2), (filter_positions_rows _ _ E1).
  apply filter_filter.
Qed.

(** What one turn of the loop adds. *)
Lemma chunk_step_rows st chunk st' :
  step st chunk = Some st' ->
  all_data st'
  = (all_data st
     ++ map clean_name
          (List.filter
             (fun r => named r
                       && (position_ok (clean_name r)
                           && year_ok (clean_name r)))
             (rows chunk)))%list
  /\ processed_rows st'
     = processed_rows st + Z.of_nat (length (all_data st'))
       - Z.of_nat (length (all_data st))
  /\ chunk_num st' = chunk_num st + 1.
Proof.
  unfold chunk_step.
  destruct (clean chunk) as [c1|] eqn:E1;
    simpl; [|discriminate].
  destruct (apply_filters c1) as [c2|] eqn:E2;
    simpl; [|discriminate].
  intros [= <-]. simpl.
  rewrite (apply_filters_rows _ _ E2), (clean_rows _ _ E1).
  rewrite filter_map, filter_filter. split; [reflexivity|].
  split; [|reflexivity]. rewrite length_app. lia.
Qed.



(** A fault of the reader ends the loop with an exception. *)
Lemma chunks_loop_fault n header e : forall fuel evs st,
  (length evs <= fuel)%nat -> In (Fault e) evs ->
  loop fuel (S n) header evs st = None.
Proof.
  induction fuel as [|fuel IH]; intros evs st Hlen Hin.
  - destruct evs; [destruct Hin|simpl in Hlen; lia].
  - destruct evs as [|ev evs]; [destruct Hin|].
    cbn [chunks_loop].
    destruct (next_window (S n) (ev :: evs)) as [[w rest]|] eqn:Ew;
      [|reflexivity].
    cbn [mbind option_bind].
    destruct (parse_window _ header w) as [chunk|]; [|reflexivity].
    cbn [mbind option_bind].
    destruct (step st chunk) as [st1|]; [|reflexivity].
    cbn [mbind option_bind]. apply IH.
    + pose proof (next_window_shorter _ _ _ _ Ew ltac:(discriminate)). lia.
    + eapply next_window_fault; eassumption.
Qed.

(** The bound on the number of windows is never reached: any bound from
    the length of the file upwards gives the same run. *)
Lemma chunks_loop_fuel n header : forall fuel1 fuel2 evs st,
  (length evs <= fuel1)%nat -> (length evs <= fuel2)%nat ->
  loop fuel1 (S n) header evs st = loop fuel2 (S n) header evs st.
Proof.
  induction fuel1 as [|fuel1 IH]; intros fuel2 evs st H1 H2.
  - destruct evs; [|simpl in H1; lia]. destruct fuel2; reflexivity.
  - destruct evs as [|ev evs]; [destruct fuel2; reflexivity|].
    destruct fuel2 as [|fuel2]; [simpl in H2; lia|].
    cbn [chunks_loop].
    destruct (next_window (S n) (ev :: evs)) as [[w rest]|] eqn:Ew;
      [|reflexivity].
    cbn [mbind option_bind].
    destruct (parse_window _ header w) as [chunk|]; [|reflexivity].
    cbn [mbind option_bind].
    destruct (step st chunk) as [st1|]; [|reflexivity].
    cbn [mbind option_bind].
    pose proof (next_window_shorter _ _ _ _ Ew ltac:(discriminate)) as Hlt.
    simpl in H1, H2, Hlt. apply IH; lia.
Qed.

Lemma columns_with_In r roles col :
  In col (columns_with r roles) <-> In (col, Some r) roles.
Proof.
  unfold columns_with. rewrite in_map_iff. split.
  - intros ([c o] & <- & H). apply filter_In in H as [Hin H]. simpl in *.
    destruct o as [r'|]; [|discriminate].
    destruct r, r'; try discriminate; assumption.
  - intros H. exists (col, Some r). split; [reflexivity|].
    apply filter_In. split; [assumption|]. destruct r; reflexivity.
Qed.

(** The four lists of [detect_player_columns] hold the headers by the role
    that the body of its loop gives them. *)
Lemma detect_lists df pl st po te :
  sample_data self = Some df ->
  detect_player_columns float_repr self = Some (pl, st, po, te) ->
  forall r col,
    In col match r with
           | PlayerCol => pl | StatCol => st
           | PositionCol => po | TeamCol => te
           end
    <-> In col (headers self)
        /\ exists dt, column_dtype df col = Some dt
                      /\ column_role float_repr col dt (column_values df col)
                         = Some r.
Proof.
  intros Hdf. unfold detect_player_columns. rewrite Hdf.
  destruct (mapM _ (headers self)) as [roles|] eqn:Hm;
    cbn [mbind option_bind]; [|discriminate].
  intros [= <- <- <- <-] r col.
  apply mapM_Some in Hm.
  transitivity (In (col, Some r) roles).
  { destruct r; apply columns_with_In. }
  induction Hm as [|x y hs roles Hxy _ IH]; simpl.
  - split; [intros []|intros [[] _]].
  - destruct (column_dtype df x) as [dt|] eqn:Hdt;
      cbn [mbind option_bind] in Hxy; [|discriminate].
    injection Hxy as <-. rewrite IH. split.
    + intros [[= -> Hr]|H].
      * split; [left; reflexivity|]. eauto.
      * destruct H as [H1 H2]. split; [right; assumption|assumption].
    + intros [[->|Hin] (dt' & Hdt' & Hr)].
      * left. congruence.
      * right. split; [assumption|]. eauto.
Qed.

(** ** The loop body, row by row

    The body of the loop treats each row of a parsed chunk on its own:
    the records that it adds are [kept_records] of the rows. *)
Section RowWise.
Variable cols : list (string * dtype).

Local Abbreviation kept_records :=
  (kept_records float_repr player_col position_col filters year_col).
Local Abbreviation columns_present :=
  (columns_present player_col position_col filters year_col).

Lemma kept_records_app rs1 rs2 :
  kept_records (rs1 ++ rs2)%list
  = (kept_records rs1 ++ kept_records rs2)%list.
Proof.
  unfold PandasCSV.kept_records.
  rewrite List.filter_app, map_app. reflexivity.
Qed.

Lemma next_window_rows n : forall body,
  next_window n (map Row body)
  = Some (firstn n body, map Row (skipn n body)).
Proof.
  induction n as [|n IH]; intros body; simpl; [reflexivity|].
  destruct body as [|r body]; simpl; [reflexivity|].
  rewrite IH. reflexivity.
Qed.

Lemma retyped_names (cs : list (string * dtype)) :
  map fst (map (fun cd : string * dtype =>
                  if String.eqb (fst cd) player_col
                  then (fst cd, object) else cd) cs)
  = map fst cs.
Proof.
  induction cs as [|[c d] cs IH]; simpl; [reflexivity|].
  rewrite IH. destruct (String.eqb c player_col); reflexivity.
Qed.

Lemma chunk_step_rowwise st rs :
  option_map all_data (step st {| columns := cols; rows := rs |})
  = if columns_present cols
    then Some (all_data st ++ kept_records rs)%list
    else None.
Proof.
  destruct (step st {| columns := cols; rows := rs |}) as [st'|] eqn:Hstep.
  - destruct (chunk_step_rows _ _ _ Hstep) as [Hd _]. simpl. rewrite Hd.
    replace (columns_present cols) with true; [reflexivity|].
    symmetry. revert Hstep.
    unfold chunk_step, PandasCSV.clean, PandasCSV.apply_filters,
      filter_positions, filter_year, PandasCSV.columns_present, has_column,
      select.
    cbn [columns rows].
    destruct (in_list player_col (map fst cols)); [|discriminate].
    cbn [mbind option_bind columns rows]. rewrite retyped_names.
    destruct (truthy position_col) as [pc|], (positions filters) as [acc|];
      cbn [mbind option_bind columns rows];
      try destruct (in_list pc (map fst cols));
      cbn [mbind option_bind columns rows]; rewrite ?retyped_names;
      try discriminate;
      destruct (truthy year_col) as [yc|], (year filters) as [y|];
      cbn [mbind option_bind columns rows];
      try destruct (in_list yc (map fst cols));
      try discriminate; reflexivity.
  - simpl. replace (columns_present cols) with false; [reflexivity|].
    symmetry. revert Hstep.
    unfold chunk_step, PandasCSV.clean, PandasCSV.apply_filters,
      filter_positions, filter_year, PandasCSV.columns_present, has_column,
      select.
    cbn [columns rows].
    destruct (in_list player_col (map fst cols)); [|reflexivity].
    cbn [mbind option_bind columns rows]. rewrite retyped_names.
    destruct (truthy position_col) as [pc|], (positions filters) as [acc|];
      cbn [mbind option_bind columns rows];
      try destruct (in_list pc (map fst cols));
      cbn [mbind option_bind columns rows]; rewrite ?retyped_names;
      try reflexivity;
      destruct (truthy year_col) as [yc|], (year filters) as [y|];
      cbn [mbind option_bind columns rows];
      try destruct (in_list yc (map fst cols));
      try discriminate; reflexivity.
Qed.

End RowWise.

End Run.

End PandasFacts.

(* ===================================================================== *)
(** * The two extractors: the claims *)
(* ===================================================================== *)

Module Claims.
Import PyStr PyNum Py StrFacts LargeCSVFacts PandasFacts Samples.
Import PandasCSV.

(** C1, as stated, fails for the extractor that keeps a list: two rows
    with the same name give two records, the earlier one first. *)
Lemma pandas_keeps_both_records :
  Defaults.extract_fantasy_data (init 50000) "name" ["pts"] None None
                                no_filters None same_name_twice
  = Some [ {[ "name" := CStr "A B"; "pts" := CInt 1 ]};
           {[ "name" := CStr "A B"; "pts" := CInt 2 ]} ].
Proof. vm_compute. reflexivity. Qed.

(** C4: the records of the pandas extractor depend on the chunk size.
    With one row per chunk the column [pts] of the first chunk is read
    as integers; with chunks of 7 or of 10000 rows both rows are in one
    chunk and the column is read as text. *)
Lemma chunk_size_changes_records :
  Defaults.extract_fantasy_data (init 1) "name" ["pts"] None None
                                no_filters None number_then_text
  = Some [ {[ "name" := CStr "A B"; "pts" := CInt 1 ]};
           {[ "name" := CStr "C D"; "pts" := CStr "x" ]} ]
  /\ Defaults.extract_fantasy_data (init 7) "name" ["pts"] None None
                                   no_filters None number_then_text
     = Some [ {[ "name" := CStr "A B"; "pts" := CStr "1" ]};
              {[ "name" := CStr "C D"; "pts" := CStr "x" ]} ]
  /\ Defaults.extract_fantasy_data (init 10000) "name" ["pts"] None None
                                   no_filters None number_then_text
     = Some [ {[ "name" := CStr "A B"; "pts" := CStr "1" ]};
              {[ "name" := CStr "C D"; "pts" := CStr "x" ]} ].
Proof. repeat split; vm_compute; reflexivity. Qed.

(** C3, as stated, fails: a run that meets an I/O error ends in the
    bare exception, or in [None] for the pandas extractor, the same
    whether a record had been built before the error or not. *)
Lemma partial_state_lost :
  LargeCSV.rows_loop roster 0 [1; 2] [Row ["Alice Smith"; "NYG"; "10.5"]]
                     LargeCSV.start
  = Ok {| LargeCSV.players_data :=
            {[ "Alice Smith" :=
                 {[ "name" := LargeCSV.VStr "Alice Smith";
                    "team" := LargeCSV.VStr "NYG";
                    "points" := LargeCSV.VFloat
                                  (binary_normalize prec emax 21 (-1) false) ]} ]};
          LargeCSV.processed_rows := 1 |}
  /\ LargeCSV.extract_player_data roster 0 [1; 2] (as_file fails_after_alice)
     = Raise OSError
  /\ LargeCSV.extract_player_data roster 0 [1; 2] (as_file fails_at_once)
     = Raise OSError
  /\ Defaults.extract_fantasy_data (init 50000) "name" ["points"] None None
                                   no_filters None fails_after_alice = None
  /\ Defaults.extract_fantasy_data (init 50000) "name" ["points"] None None
                                   no_filters None fails_at_once = None.
Proof. repeat split; vm_compute; reflexivity. Qed.

(** C3 (amended).  When the reader faults anywhere in the file, the
    extraction aborts and hands back no partial state:
    [extract_player_data] ends in an exception, which is the fault itself
    when the rows before it were processed, whatever state [st] they had
    built; [extract_fantasy_data] returns [None]. *)
Theorem fault_aborts_extraction
        self p stats (f : LargeCSV.csv_file)
        parse_window float_repr pself player_col stat_cols
        position_col team_col filters year_col e :
  In (Fault e) (LargeCSV.reader f) ->
  (exists e', LargeCSV.extract_player_data self p stats f = Raise e')
  /\ (forall header before after name st,
         LargeCSV.reader f = (Row header :: before ++ Fault e :: after)%list ->
         py_index (LargeCSV.headers self) p = Ok name ->
         LargeCSV.rows_loop self p stats before LargeCSV.start = Ok st ->
         LargeCSV.extract_player_data self p stats f = Raise e)
  /\ extract_fantasy_data parse_window float_repr pself player_col stat_cols
                          position_col team_col filters year_col
                          (LargeCSV.reader f) = None.
Proof.
  intros Hin. split; [|split].
  - unfold LargeCSV.extract_player_data.
    destruct (py_index (LargeCSV.headers self) p) as [h|e0]; simpl; [|eauto].
    destruct (LargeCSV.reader f) as [|[hd|e0] rest]; [destruct Hin| |eauto].
    destruct Hin as [Hin|Hin]; [discriminate|].
    destruct (LargeCSV.rows_loop self p stats rest LargeCSV.start)
      as [st|e'] eqn:Hloop; simpl; [|eauto].
    apply rows_loop_ok_rows in Hloop.
    rewrite Forall_forall in Hloop.
    apply list_elem_of_In, Hloop in Hin. discriminate.
  - intros header before after name st Hf Hname Hbefore.
    unfold LargeCSV.extract_player_data. rewrite Hname, Hf. simpl.
    rewrite rows_loop_app by (eapply rows_loop_ok_rows; eassumption).
    rewrite Hbefore. reflexivity.
  - unfold extract_fantasy_data.
    destruct (chunk_size pself <? 1) eqn:Hcs; [reflexivity|].
    apply Z.ltb_ge in Hcs.
    destruct (LargeCSV.reader f) as [|[hd|e0] rest]; [reflexivity| |reflexivity].
    destruct Hin as [Hin|Hin]; [discriminate|].
    destruct (parse_window _ hd []); [|reflexivity]. cbn [mbind option_bind].
    destruct (Z.to_nat (chunk_size pself)) as [|n] eqn:Hn; [lia|].
    rewrite (chunks_loop_fault parse_window float_repr player_col stat_cols
               position_col team_col filters year_col n hd e
               (length rest) rest start (le_n _) Hin).
    reflexivity.
Qed.

Lemma fault_aborts_extraction_witness :
  LargeCSV.extract_player_data roster 0 [1; 2] (as_file fails_after_alice)
  = Raise OSError
  /\ Defaults.extract_fantasy_data (init 50000) "name" ["points"] None None
                                   no_filters None fails_after_alice = None.
Proof.
  pose proof (fault_aborts_extraction roster 0 [1; 2] (as_file fails_after_alice)
                Defaults.read_csv_window Defaults.float_repr (init 50000)
                "name" ["points"] None None no_filters None OSError)
    as H.
  destruct H as (_ & Hcsv & Hpandas); [simpl; auto|].
  split; [|exact Hpandas].
  eapply (Hcsv roster_header [Row ["Alice Smith"; "NYG"; "10.5"]] []).
  - reflexivity.
  - reflexivity.
  - vm_compute. reflexivity.
Defined.



(** C7, as stated, fails.  On the trimming: the position cell [" QB"]
    trims to an accepted value, yet the row is dropped, because the
    filter compares the cell as it was parsed.  On the count: a chunk
    with a row that the filter drops leaves the loop in the same state as
    the chunk without that row, so nothing counts the row. *)
Lemma padded_position_dropped :
  strip " QB" = "QB"
  /\ in_list "QB" ["QB"] = true
  /\ Defaults.extract_fantasy_data (init 50000) "name" [] (Some "pos") None
                                   only_qb None padded_position
     = Some []
  /\ Defaults.extract_fantasy_data (init 50000) "name" [] (Some "pos") None
                                   no_filters None padded_position
     = Some [ {[ "name" := CStr "A B"; "pos" := CStr " QB" ]} ]
  /\ chunk_step Defaults.float_repr "name" (Some "pos") only_qb None
                start two_positions
     = chunk_step Defaults.float_repr "name" (Some "pos") only_qb None
                  start one_position.
Proof. repeat split; vm_compute; reflexivity. Qed.

(** C7 (amended).  In one turn of the loop the filters see the rows
    that passed the cleaning of the names, with their cells as the
    parser typed them.  The records added are those of the named rows
    whose position cell, untrimmed, is a text of the accepted list, when
    a position column and a list are given, and whose year cell equals
    the year, when a year column and a year are given.  The rows
    dropped are counted nowhere: [processed_rows] grows by the number
    of records added. *)
Theorem filters_after_names
        float_repr player_col position_col filters year_col st chunk st' :
  chunk_step float_repr player_col position_col filters year_col st chunk
  = Some st' ->
  exists added,
    all_data st' = (all_data st ++ added)%list
    /\ processed_rows st' = processed_rows st + Z.of_nat (length added)
    /\ (forall rec,
           In rec added <->
           exists r, In r (rows chunk)
                     /\ named float_repr player_col r = true
                     /\ rec = clean_name float_repr player_col r
                     /\ (forall pc accepted,
                            truthy position_col = Some pc ->
                            positions filters = Some accepted ->
                            exists s, cell_of rec pc = CStr s /\ In s accepted)
                     /\ (forall yc y,
                            truthy year_col = Some yc ->
                            year filters = Some y ->
                            py_eq (cell_of rec yc) y = true)).
Proof.
  intros Hstep.
  destruct (chunk_step_rows _ _ _ _ _ _ _ _ Hstep) as (Hdata & Hcount & _).
  eexists. split; [exact Hdata|]. split.
  { rewrite Hdata, length_app in Hcount. lia. }
  intros rec. rewrite in_map_iff. split.
  - intros (r & <- & Hr). apply filter_In in Hr as [Hin Hr].
    apply andb_true_iff in Hr as [Hn Hr].
    apply andb_true_iff in Hr as [Hp Hy].
    exists r. split; [assumption|]. split; [assumption|].
    split; [reflexivity|]. split.
    + intros pc accepted Hpc Hacc. unfold position_ok in Hp.
      rewrite Hpc, Hacc in Hp. unfold isin in Hp.
      destruct (cell_of _ pc) as [| | | |s]; try discriminate.
      exists s. split; [reflexivity|]. unfold in_list in Hp.
      apply existsb_exists in Hp as (x & Hx & Heq).
      apply String.eqb_eq in Heq. subst x. assumption.
    + intros yc y Hyc Hy'. unfold year_ok in Hy. rewrite Hyc, Hy' in Hy.
      assumption.
  - intros (r & Hin & Hn & -> & Hp & Hy). exists r. split; [reflexivity|].
    apply filter_In. split; [assumption|]. rewrite Hn. simpl.
    apply andb_true_iff. split.
    + unfold position_ok.
      destruct (truthy position_col) as [pc|]; [|reflexivity].
      destruct (positions filters) as [accepted|]; [|reflexivity].
      destruct (Hp pc accepted eq_refl eq_refl) as (s & -> & Hs).
      simpl. unfold in_list. apply existsb_exists. exists s.
      split; [assumption|apply String.eqb_refl].
    + unfold year_ok.
      destruct (truthy year_col) as [yc|]; [|reflexivity].
      destruct (year filters) as [y|]; [|reflexivity].
      apply (Hy yc y eq_refl eq_refl).
Qed.

Lemma filters_after_names_witness :
  chunk_step Defaults.float_repr "name" (Some "pos") only_qb None
             start two_positions
  = Some {| all_data := [ {[ "name" := CStr "A B"; "pos" := CStr "QB" ]} ];
            processed_rows := 1; chunk_num := 1 |}
  /\ exists added,
       [ ({[ "name" := CStr "A B"; "pos" := CStr "QB" ]} : gmap string cell) ]
       = ([] ++ added)%list
       /\ 1 = 0 + Z.of_nat (length added).
Proof.
  assert (H : chunk_step Defaults.float_repr "name" (Some "pos") only_qb None
                         start two_positions
              = Some {| all_data := [ {[ "name" := CStr "A B";
                                         "pos" := CStr "QB" ]} ];
                        processed_rows := 1; chunk_num := 1 |})
    by (vm_compute; reflexivity).
  split; [exact H|].
  destruct (filters_after_names _ _ _ _ _ _ _ _ H) as (added & H1 & H2 & _).
  exists added. split; assumption.
Defined.

(** C8, as stated, fails on the majority: one value with a space among
    the first five is enough for a name column to be kept. *)
Lemma one_spaced_value_suffices :
  any_keyword_in name_keywords (lower "player_name") = true
  /\ Spec.majority_internal_space ["A B"; "x"; "y"] = false
  /\ Defaults.column_role "player_name" object one_full_name
     = Some PlayerCol
  /\ detect_player_columns Defaults.float_repr one_name_processor
     = Some (["player_name"], [], [], []).
Proof. repeat split; vm_compute; reflexivity. Qed.

(** C8 (amended).  A column whose lower-cased name holds one of the
    name keywords is taken as a player column exactly when its dtype is
    [object] and at least one of its first five values that are
    present holds a space, anywhere in its text; otherwise it is put in
    no list at all.  So it is for the body of the loop, and so for the
    lists that [detect_player_columns] returns. *)
Theorem player_column_needs_a_space float_repr col dt col_data :
  any_keyword_in name_keywords (lower col) = true ->
  (column_role float_repr col dt col_data = Some PlayerCol
   <-> dt = object
       /\ exists v,
            In v (firstn 5 (List.filter (fun v => negb (is_nan v)) col_data))
            /\ contains " " (astype_str float_repr v) = true)
  /\ (column_role float_repr col dt col_data <> Some PlayerCol ->
      column_role float_repr col dt col_data = None)
  /\ (forall self df pl st po te,
         sample_data self = Some df ->
         column_dtype df col = Some dt ->
         column_values df col = col_data ->
         detect_player_columns float_repr self = Some (pl, st, po, te) ->
         (In col pl <-> In col (headers self)
                        /\ column_role float_repr col dt col_data
                           = Some PlayerCol)
         /\ (~ In col pl -> ~ In col st /\ ~ In col po /\ ~ In col te)).
Proof.
  intros Hname.
  assert (Hiff : column_role float_repr col dt col_data = Some PlayerCol
                 <-> dt = object
                     /\ exists v,
                          In v (firstn 5 (List.filter
                                            (fun v => negb (is_nan v)) col_data))
                          /\ contains " " (astype_str float_repr v) = true).
  { unfold column_role. rewrite Hname.
    destruct (dtype_eqb dt object) eqn:Hdt.
    - assert (dt = object) as -> by (destruct dt; try discriminate; reflexivity).
      destruct (existsb _ _) eqn:Hex.
      + split; [|reflexivity]. intros _. split; [reflexivity|].
        apply existsb_exists in Hex. exact Hex.
      + split; [discriminate|].
        intros [_ H]. apply existsb_exists in H. congruence.
    - split; [discriminate|]. intros [-> _]. discriminate. }
  assert (Hnone : column_role float_repr col dt col_data <> Some PlayerCol ->
                  column_role float_repr col dt col_data = None).
  { unfold column_role. rewrite Hname.
    destruct (dtype_eqb dt object); [|reflexivity].
    destruct (existsb _ _); [intros H; contradiction|reflexivity]. }
  split; [exact Hiff|]. split; [exact Hnone|].
  intros self df pl st po te Hdf Hdt Hvals Hdet.
  pose proof (detect_lists float_repr self df pl st po te Hdf Hdet) as Hl.
  split.
  - rewrite (Hl PlayerCol col). split.
    + intros [Hin (dt' & Hdt' & Hr)]. split; [assumption|]. congruence.
    + intros [Hin Hr]. split; [assumption|]. exists dt. subst. auto.
  - intros Hnot.
    assert (Hr : column_role float_repr col dt col_data = None \/ ~ In col (headers self)).
    { destruct (in_dec string_dec col (headers self)) as [Hin|Hin]; [|auto].
      left. apply Hnone. intros Hr. apply Hnot.
      apply (Hl PlayerCol col). split; [assumption|]. exists dt. subst. auto. }
    repeat split; intros Hin;
      [apply (Hl StatCol col) in Hin|apply (Hl PositionCol col) in Hin
       |apply (Hl TeamCol col) in Hin];
      destruct Hin as [Hin (dt' & Hdt' & Hrole)];
      (destruct Hr as [Hr|Hr]; [|contradiction]);
      rewrite Hdt in Hdt'; injection Hdt' as <-;
      rewrite Hvals, Hr in Hrole; discriminate.
Qed.

Lemma player_column_needs_a_space_witness :
  Defaults.column_role "player_name" object one_full_name = Some PlayerCol.
Proof.
  apply (proj1 (player_column_needs_a_space Defaults.float_repr
                  "player_name" object one_full_name eq_refl)).
  split; [reflexivity|]. exists (CStr "A B"). split; [left; reflexivity|].
  reflexivity.
Defined.

End Claims.

(* ===================================================================== *)
(** * [LargeCSVProcessor]: detection, prompts and further properties *)
(* ===================================================================== *)

Module LargeCSVExtras.
Import PyStr PyNum Py LargeCSV Prompt LargeCSVPrompt StrFacts LargeCSVFacts.
Import Samples.

Lemma enumerate_from_In {A} (l : list A) : forall s i a,
  In (i, a) (enumerate_from s l)
  <-> s <= i /\ nth_error l (Z.to_nat (i - s)) = Some a.
Proof.
  induction l as [|x t IH]; intros s i a; simpl.
  - split; [intros []|]. intros [_ H]. destruct (Z.to_nat (i - s)); discriminate.
  - rewrite IH. split.
    + intros [[= <- <-]|[Hle Hn]].
      * split; [lia|]. replace (s - s) with 0 by lia. reflexivity.
      * split; [lia|].
        replace (Z.to_nat (i - s)) with (S (Z.to_nat (i - (s + 1)))) by lia.
        exact Hn.
    + intros [Hle Hn]. destruct (Z.eq_dec i s) as [->|Hne].
      * left. replace (s - s) with 0 in Hn by lia. simpl in Hn. congruence.
      * right. split; [lia|].
        replace (Z.to_nat (i - s)) with (S (Z.to_nat (i - (s + 1)))) in Hn
          by lia.
        exact Hn.
Qed.

Lemma py_index_nth {A} (l : list A) i a :
  0 <= i -> nth_error l (Z.to_nat i) = Some a -> py_index l i = Ok a.
Proof.
  intros Hi Hn. unfold py_index.
  assert (Hlt : (Z.to_nat i < length l)%nat)
    by (apply nth_error_Some; congruence).
  destruct (i <? 0) eqn:E; [apply Z.ltb_lt in E; lia|].
  replace ((0 <=? i) && (i <? Z.of_nat (length l))) with true
    by (symmetry; apply andb_true_iff; split;
        [apply Z.leb_le|apply Z.ltb_lt]; lia).
  rewrite Hn. reflexivity.
Qed.

Lemma py_index_raises {A} (l : list A) i e :
  py_index l i = Raise e -> e = IndexError.
Proof.
  unfold py_index. destruct (_ && _); [|congruence].
  destruct (nth_error _ _); congruence.
Qed.

Lemma py_index_beyond {A} (l : list A) i :
  Z.of_nat (length l) <= i -> py_index l i = Raise IndexError.
Proof.
  intros H. unfold py_index.
  destruct (i <? 0) eqn:E; [apply Z.ltb_lt in E; lia|].
  replace (i <? Z.of_nat (length l)) with false
    by (symmetry; apply Z.ltb_ge; lia).
  rewrite andb_false_r. reflexivity.
Qed.

(** The numbered headers that hold a keyword of a list. *)
Lemma keyword_columns_In kws hs i h :
  In (i, h) (List.filter (fun ih : Z * string =>
                            any_keyword_in kws (lower (snd ih)))
                         (enumerate_from 0 hs))
  <-> 0 <= i /\ nth_error hs (Z.to_nat i) = Some h
      /\ any_keyword_in kws (lower h) = true.
Proof.
  rewrite filter_In, enumerate_from_In. simpl.
  replace (i - 0) with i by lia. tauto.
Qed.

(** X1.  [find_player_columns] returns, in each of its two lists, exactly
    the pairs of a valid index and the header at that index whose
    lower-cased header holds a keyword of the list; so each index it
    returns can be used to read the header. *)
Theorem find_player_columns_sound self i h :
  (In (i, h) (fst (find_player_columns self))
   <-> 0 <= i /\ nth_error (headers self) (Z.to_nat i) = Some h
       /\ any_keyword_in player_keywords (lower h) = true)
  /\ (In (i, h) (snd (find_player_columns self))
      <-> 0 <= i /\ nth_error (headers self) (Z.to_nat i) = Some h
          /\ any_keyword_in stat_keywords (lower h) = true)
  /\ (In (i, h) (fst (find_player_columns self))
      \/ In (i, h) (snd (find_player_columns self)) ->
      py_index (headers self) i = Ok h
      /\ 0 <= i < Z.of_nat (length (headers self))).
Proof.
  split; [apply keyword_columns_In|]. split; [apply keyword_columns_In|].
  intros H.
  assert (Hi : 0 <= i /\ nth_error (headers self) (Z.to_nat i) = Some h).
  { destruct H as [H|H]; apply keyword_columns_In in H; tauto. }
  destruct Hi as [Hi Hn]. split; [apply py_index_nth; assumption|].
  assert ((Z.to_nat i < length (headers self))%nat)
    by (apply nth_error_Some; congruence).
  lia.
Qed.

Lemma ask_player_col_range self : forall answers p rest,
  ask_player_col self answers = Some (p, rest) ->
  0 <= p < Z.of_nat (length (headers self)).
Proof.
  induction answers as [|a answers IH]; intros p rest; simpl; [discriminate|].
  destruct (py_int a) as [v|]; [|apply IH].
  destruct (_ && _) eqn:E; [|apply IH].
  intros [= <- _]. apply andb_true_iff in E as [E1 E2].
  apply Z.leb_le in E1. apply Z.ltb_lt in E2. lia.
Qed.

(** The player index of a selection is the one that the first prompt
    accepted. *)
Lemma selection_player_asked self answers p stats :
  interactive_column_selection self answers = Some (p, stats) ->
  exists rest, ask_player_col self answers = Some (p, rest).
Proof.
  unfold interactive_column_selection.
  destruct (ask_player_col self answers) as [[p' rest]|]; [|discriminate].
  destruct rest as [|a rest]; [discriminate|].
  intros H. exists (a :: rest).
  assert (p = p') as ->; [|reflexivity].
  destruct (String.eqb _ _); [congruence|].
  destruct (parse_indices _); congruence.
Qed.

(** X2.  Whatever the operator types, the player index that
    [interactive_column_selection] returns is the index of a header:
    answers that are no number, or a number out of range, are asked
    again. *)
Theorem selected_player_in_range self answers p stats :
  interactive_column_selection self answers = Some (p, stats) ->
  0 <= p < Z.of_nat (length (headers self))
  /\ exists h, py_index (headers self) p = Ok h.
Proof.
  intros H. apply selection_player_asked in H as [rest Ha].
  apply ask_player_col_range in Ha.
  split; [assumption|]. apply py_index_in_range. assumption.
Qed.

Lemma selected_player_in_range_witness :
  0 <= 0 < Z.of_nat (length (headers roster))
  /\ exists h, py_index (headers roster) 0 = Ok h.
Proof.
  apply (selected_player_in_range roster ["x"; "9"; "1"; "auto"] 0 [2]).
  vm_compute. reflexivity.
Defined.

(** X3.  After a successful analysis of a file whose rows are all read
    without a fault, a selection made at the prompt whose stat indices
    are the detected ones, or lie within the header, is extracted
    without an exception: [main] reaches the saving of the data. *)
Theorem prompted_selection_extracts f h rest answers p stats :
  reader f = Row h :: rest ->
  Forall (fun ev => is_row ev = true) rest ->
  interactive_column_selection (snd (analyze_file f init)) answers
  = Some (p, stats) ->
  (stats = map fst (snd (find_player_columns (snd (analyze_file f init))))
   \/ Forall (fun i => 0 <= i < Z.of_nat (length h)) stats) ->
  exists data, main (Some f) (p, stats) = Extracted data.
Proof.
  intros Hf Hrows Hsel Hstats.
  assert (Hs : forallb is_row (firstn 4 rest) = true).
  { apply forallb_forall. intros ev Hin. rewrite Forall_forall in Hrows.
    apply Hrows. apply (subseteq_take 4 rest), list_elem_of_In, Hin. }
  assert (Han : exists pr, analyze_file f init = (true, pr) /\ headers pr = h).
  { unfold analyze_file. rewrite Hf, Hs.
    destruct (raw_lines f); eexists; split; reflexivity. }
  destruct Han as (pr & Han & Hh). rewrite Han in Hsel, Hstats. simpl in *.
  destruct (selection_player_asked _ _ _ _ Hsel) as [asked Hp].
  apply ask_player_col_range in Hp.
  destruct (py_index_in_range (headers pr) p Hp) as [hp Hhp].
  assert (Hin : Forall (fun i => 0 <= i < Z.of_nat (length (headers pr))) stats).
  { destruct Hstats as [->|H]; [|rewrite Hh; exact H].
    apply Forall_forall. intros i Hi. apply list_elem_of_In in Hi.
    apply in_map_iff in Hi as ([i' h'] & <- & Hi). simpl.
    apply (proj1 (keyword_columns_In stat_keywords (headers pr) i' h'))
      in Hi as (Hi0 & Hn & _).
    assert ((Z.to_nat i' < length (headers pr))%nat)
      by (apply nth_error_Some; congruence).
    lia. }
  unfold main. rewrite Han. simpl. unfold extract_player_data.
  rewrite Hhp, Hf. simpl.
  destruct (rows_loop_total pr p stats ltac:(lia) Hin rest start Hrows)
    as [st ->].
  simpl. eauto.
Qed.

Lemma prompted_selection_extracts_witness :
  exists data, main (Some roster_file) (0, [2]) = Extracted data.
Proof.
  apply (prompted_selection_extracts roster_file roster_header
           [Row ["Alice"; "NYG"; "10.5"]; Row [""; "BUF"; "5"];
            Row ["Alice"; "NYG"; "12"]]
           ["x"; "9"; "1"; "auto"] 0 [2]).
  - reflexivity.
  - repeat constructor.
  - vm_compute. reflexivity.
  - left. vm_compute. reflexivity.
Defined.

Section More.
Variable self : processor.
Variable p : Z.
Variable stats : list Z.

Lemma rows_loop_counts evs : forall st st',
  rows_loop self p stats evs st = Ok st' ->
  Z.of_nat (size (players_data st')) - Z.of_nat (size (players_data st))
  <= processed_rows st' - processed_rows st
  /\ processed_rows st' - processed_rows st <= Z.of_nat (length evs).
Proof.
  induction evs as [|[row|e] evs IH]; intros st st'; cbn [rows_loop].
  - intros [= ->]. simpl. lia.
  - rewrite row_step_extracted.
    destruct (extracted self p stats row) as [r|]; cbn [bind]; [|discriminate].
    intros Hloop. apply IH in Hloop. rewrite length_cons.
    destruct r as [[k attrs]|]; cbn [players_data processed_rows] in Hloop.
    + rewrite map_size_insert in Hloop.
      destruct (players_data st !! k); unfold id in Hloop; lia.
    + lia.
  - discriminate.
Qed.

(** A key, once in the table, stays in it. *)
Lemma rows_loop_keeps_keys k evs : forall st st',
  rows_loop self p stats evs st = Ok st' ->
  is_Some (players_data st !! k) -> is_Some (players_data st' !! k).
Proof.
  induction evs as [|[row|e] evs IH]; intros st st'; simpl.
  - intros [= ->]. auto.
  - rewrite row_step_extracted.
    destruct (extracted self p stats row) as [r|]; simpl; [|discriminate].
    intros Hloop Hk. apply (IH _ _ Hloop).
    destruct r as [[k' attrs]|]; simpl; [|assumption].
    destruct (decide (k' = k)) as [->|Hne].
    + rewrite lookup_insert_eq. eauto.
    + rewrite lookup_insert_ne by assumption. assumption.
  - discriminate.
Qed.

Lemma for_each_stats_name row : forall idxs (attrs0 attrs : record) key,
  (forall i h, In i idxs -> py_index (headers self) i = Ok h -> h <> key) ->
  for_each (stat_step self row) idxs attrs0 = Ok attrs ->
  attrs !! key = attrs0 !! key.
Proof.
  induction idxs as [|i idxs IH]; intros attrs0 attrs key Hne; simpl.
  - intros [= ->]. reflexivity.
  - unfold stat_step at 1. destruct (i <? Z.of_nat (length row)).
    + destruct (py_index (headers self) i) as [h|] eqn:Eh; simpl; [|discriminate].
      destruct (py_index row i) as [cell|]; simpl; [|discriminate].
      intros H. rewrite (IH _ _ key (fun j hj Hj => Hne j hj (or_intror Hj)) H).
      apply lookup_insert_ne. apply (Hne i h); [left; reflexivity|assumption].
    + simpl. apply IH. intros j hj Hj. apply Hne. right. assumption.
Qed.

Lemma for_each_stats_raises row : forall idxs (attrs0 : record) e,
  for_each (stat_step self row) idxs attrs0 = Raise e -> e = IndexError.
Proof.
  induction idxs as [|i idxs IH]; intros attrs0 e; simpl; [discriminate|].
  unfold stat_step at 1. destruct (i <? Z.of_nat (length row)).
  - destruct (py_index (headers self) i) as [h|e1] eqn:Eh; simpl.
    + destruct (py_index row i) as [cell|e2] eqn:Ec; simpl.
      * apply IH.
      * intros [= <-]. eapply py_index_raises, Ec.
    + intros [= <-]. eapply py_index_raises, Eh.
  - simpl. apply IH.
Qed.

End More.

(** X4.  The table that [extract_player_data] returns has at most as many
    records as rows were counted as processed, and these are at most the
    data rows of the file. *)
Theorem unique_players_bounded self p stats f h rest table :
  reader f = Row h :: rest ->
  extract_player_data self p stats f = Ok table ->
  exists st,
    rows_loop self p stats rest start = Ok st
    /\ players_data st = table
    /\ Z.of_nat (size table) <= processed_rows st
    /\ processed_rows st <= Z.of_nat (length rest).
Proof.
  intros Hf. unfold extract_player_data. rewrite Hf.
  destruct (py_index (headers self) p); simpl; [|discriminate].
  destruct (rows_loop self p stats rest start) as [st|] eqn:Hloop;
    simpl; [|discriminate].
  intros [= <-]. exists st. split; [reflexivity|]. split; [reflexivity|].
  pose proof (rows_loop_counts self p stats rest start st Hloop) as H.
  simpl in H. rewrite map_size_empty in H. lia.
Qed.

Lemma unique_players_bounded_witness :
  exists st,
    rows_loop roster 0 [1; 2]
              [Row ["Alice"; "NYG"; "10.5"]; Row [""; "BUF"; "5"];
               Row ["Alice"; "NYG"; "12"]] start = Ok st
    /\ players_data st
       = {[ "Alice" := {[ "name" := VStr "Alice"; "team" := VStr "NYG";
                          "points" := VInt 12 ]} ]}
    /\ Z.of_nat (size ({[ "Alice" := {[ "name" := VStr "Alice";
                                        "team" := VStr "NYG";
                                        "points" := VInt 12 ]} ]} : table))
       <= processed_rows st
    /\ processed_rows st <= 3.
Proof.
  apply (unique_players_bounded roster 0 [1; 2] roster_file roster_header).
  - reflexivity.
  - vm_compute. reflexivity.
Defined.

(** X5.  The keys of the table that [extract_player_data] returns are
    exactly the keys that the rows of the file yield: no row that yields
    a record is lost, and no key comes from elsewhere. *)
Theorem table_keys_are_row_keys self p stats f h rest table k :
  reader f = Row h :: rest ->
  extract_player_data self p stats f = Ok table ->
  (is_Some (table !! k)
   <-> exists row attrs, In (Row row) rest
                         /\ extracted self p stats row = Ok (Some (k, attrs))).
Proof.
  intros Hf. unfold extract_player_data. rewrite Hf.
  destruct (py_index (headers self) p); simpl; [|discriminate].
  destruct (rows_loop self p stats rest start) as [st|] eqn:Hloop;
    simpl; [|discriminate].
  intros [= <-]. split.
  - intros [attrs Hk].
    destruct (rows_loop_records _ _ _ _ _ _ _ _ Hloop Hk) as [H|(row & Hin & Hr)].
    + simpl in H. rewrite lookup_empty in H. discriminate.
    + eauto.
  - intros (row & attrs & Hin & Hr).
    apply in_split in Hin as (before & after & ->).
    pose proof (rows_loop_ok_rows _ _ _ _ _ _ Hloop) as Hrows.
    apply Forall_app in Hrows as [Hbefore _].
    rewrite rows_loop_app in Hloop by assumption.
    destruct (rows_loop self p stats before start) as [st1|]; simpl in Hloop;
      [|discriminate].
    rewrite row_step_extracted, Hr in Hloop. simpl in Hloop.
    apply (rows_loop_keeps_keys _ _ _ k _ _ _ Hloop). simpl.
    rewrite lookup_insert_eq. eauto.
Qed.

Lemma table_keys_are_row_keys_witness :
  is_Some (({[ "Alice" := {[ "name" := VStr "Alice"; "team" := VStr "NYG";
                             "points" := VInt 12 ]} ]} : table) !! "Alice")
  <-> exists row attrs,
        In (Row row) [Row ["Alice"; "NYG"; "10.5"]; Row [""; "BUF"; "5"];
                      Row ["Alice"; "NYG"; "12"]]
        /\ extracted roster 0 [1; 2] row = Ok (Some ("Alice", attrs)).
Proof.
  apply (table_keys_are_row_keys roster 0 [1; 2] roster_file roster_header).
  - reflexivity.
  - vm_compute. reflexivity.
Defined.

(** X6.  In every record of the returned table the attribute ['name'] is
    the key of the record, provided that no selected stat column has the
    header ["name"] (such a column would overwrite it). *)
Theorem name_attribute_is_key self p stats f table k attrs :
  (forall i h, In i stats -> py_index (headers self) i = Ok h -> h <> "name") ->
  extract_player_data self p stats f = Ok table ->
  table !! k = Some attrs ->
  attrs !! "name" = Some (VStr k).
Proof.
  intros Hne Hex Hk. unfold extract_player_data in Hex.
  destruct (py_index (headers self) p); simpl in Hex; [|discriminate].
  destruct (reader f) as [|[h|e] rest]; try discriminate.
  destruct (rows_loop self p stats rest start) as [st|] eqn:Hloop;
    simpl in Hex; [|discriminate].
  injection Hex as <-.
  destruct (rows_loop_records _ _ _ _ _ _ _ _ Hloop Hk) as [H|(row & _ & Hrow)].
  - simpl in H. rewrite lookup_empty in H. discriminate.
  - unfold extracted in Hrow.
    destruct (too_short p stats row); [discriminate|].
    destruct (py_index row p) as [cell|]; simpl in Hrow; [|discriminate].
    destruct (is_empty (strip cell)); [discriminate|].
    destruct (build_stats self stats row (strip cell)) as [built|] eqn:Eb;
      simpl in Hrow; [|discriminate].
    injection Hrow as <- <-. unfold build_stats in Eb.
    rewrite (for_each_stats_name self row stats _ _ "name" Hne Eb).
    apply lookup_singleton_eq.
Qed.

Lemma name_attribute_is_key_witness :
  ({[ "name" := VStr "Alice"; "team" := VStr "NYG"; "points" := VInt 12 ]}
   : record) !! "name" = Some (VStr "Alice").
Proof.
  apply (name_attribute_is_key roster 0 [1; 2] roster_file
           {[ "Alice" := {[ "name" := VStr "Alice"; "team" := VStr "NYG";
                            "points" := VInt 12 ]} ]} "Alice").
  - intros i h [<-|[<-|[]]]; vm_compute; intros [= <-]; discriminate.
  - vm_compute. reflexivity.
  - vm_compute. reflexivity.
Defined.

(** X7.  A selected stat index at or beyond the end of the header is not
    caught: the first row that is long enough and has a key makes the run
    end in [IndexError], whatever came before in the table. *)
Theorem stat_index_beyond_header_raises self p stats st row cell i rest :
  In i stats -> Z.of_nat (length (headers self)) <= i ->
  too_short p stats row = false ->
  py_index row p = Ok cell -> is_empty (strip cell) = false ->
  rows_loop self p stats (Row row :: rest) st = Raise IndexError.
Proof.
  intros Hi Hlen Hs Hc He. simpl. unfold row_step. rewrite Hs, Hc. simpl.
  rewrite He. unfold build_stats.
  destruct (for_each (stat_step self row) stats _) as [attrs|e] eqn:Eb; simpl.
  - apply for_each_stats_keys in Eb as [_ Hidx].
    + destruct (Hidx i Hi) as (h & Hh & _).
      rewrite (py_index_beyond (headers self) i Hlen) in Hh. discriminate.
    + intros j Hj. apply not_too_short_bound with (p := p) (stats := stats);
        assumption.
  - apply for_each_stats_raises in Eb. subst e. reflexivity.
Qed.

Lemma stat_index_beyond_header_raises_witness :
  rows_loop roster 0 [5] [Row ["Al"; "NYG"; "1"; "2"; "3"; "4"]] start
  = Raise IndexError.
Proof.
  apply (stat_index_beyond_header_raises roster 0 [5] start
           ["Al"; "NYG"; "1"; "2"; "3"; "4"] "Al" 5 []).
  - left. reflexivity.
  - simpl. lia.
  - reflexivity.
  - reflexivity.
  - reflexivity.
Defined.

End LargeCSVExtras.

(* ===================================================================== *)
(** * [PandasCSVProcessor]: detection, prompts and further properties *)
(* ===================================================================== *)

Module PandasExtras.
Import PyStr PyNum Py PandasCSV Prompt PandasPrompt.
Import StrFacts LargeCSVFacts PandasFacts Samples MoreSamples.

Lemma in_list_In s l : in_list s l = true <-> In s l.
Proof.
  unfold in_list. rewrite existsb_exists. split.
  - intros (x & Hx & E). apply String.eqb_eq in E. subst. assumption.
  - intros H. exists s. split; [assumption|apply String.eqb_refl].
Qed.

Lemma filter_none {A} (f : A -> bool) l :
  (forall x, f x = false) -> List.filter f l = [].
Proof.
  intros H. induction l as [|a l IH]; simpl; [reflexivity|].
  rewrite H. exact IH.
Qed.

Lemma filter_sublist_impl {A} (f g : A -> bool) l :
  (forall x, f x = true -> g x = true) ->
  sublist (List.filter f l) (List.filter g l).
Proof.
  intros H. induction l as [|a l IH]; simpl; [constructor|].
  destruct (f a) eqn:Ef.
  - rewrite (H a Ef). constructor. exact IH.
  - destruct (g a); [constructor|]; exact IH.
Qed.

Lemma sublist_map {A B} (f : A -> B) l1 l2 :
  sublist l1 l2 -> sublist (map f l1) (map f l2).
Proof. induction 1; simpl; constructor; assumption. Qed.

Lemma map_fst_filter_sublist {A B} (f : A * B -> bool) l :
  sublist (map fst (List.filter f l)) (map fst l).
Proof.
  induction l as [|a l IH]; simpl; [constructor|].
  destruct (f a); simpl; constructor; exact IH.
Qed.

Section Run.
Variable parse_window :
  list string -> list string -> list (list string) -> option frame.
Variable float_repr : float -> string.
Variable player_col : string.
Variable stat_cols : list string.
Variables position_col team_col : option string.
Variable year_col : option string.

Local Abbreviation to_read :=
  (columns_to_read player_col stat_cols position_col team_col year_col).

(** A property of the loop state that every turn keeps holds at the end. *)
Lemma chunks_loop_inv filters (Q : loop_state -> Prop) n header :
  (forall st chunk st',
      chunk_step float_repr player_col position_col filters year_col st chunk
      = Some st' -> Q st -> Q st') ->
  forall fuel evs st st',
    chunks_loop parse_window float_repr player_col stat_cols position_col
                team_col filters year_col fuel n header evs st = Some st' ->
    Q st -> Q st'.
Proof.
  intros Hstep. induction fuel as [|fuel IH]; intros evs st st'.
  - destruct evs; simpl; [|discriminate]. intros [= <-]. auto.
  - destruct evs as [|ev evs]; [intros [= <-]; auto|].
    cbn [chunks_loop].
    destruct (next_window n (ev :: evs)) as [[w rest]|];
      cbn [mbind option_bind]; [|discriminate].
    destruct (parse_window _ header w) as [chunk|];
      cbn [mbind option_bind]; [|discriminate].
    destruct (chunk_step _ _ _ _ _ st chunk) as [st1|] eqn:Es;
      cbn [mbind option_bind]; [|discriminate].
    intros Hloop HQ. apply (IH _ _ _ Hloop). eapply Hstep; eassumption.
Qed.

Lemma add_column_keeps o cols c : In c cols -> In c (add_column o cols).
Proof.
  intros H. unfold add_column. destruct (truthy o) as [c'|]; [|assumption].
  destruct (in_list c' cols); [assumption|]. apply in_or_app. auto.
Qed.

Lemma add_column_adds o cols c : truthy o = Some c -> In c (add_column o cols).
Proof.
  intros H. unfold add_column. rewrite H.
  destruct (in_list c cols) eqn:E; [apply in_list_In, E|].
  apply in_or_app. right. left. reflexivity.
Qed.

End Run.

(** X8.  When [extract_fantasy_data] returns its records, the counter
    [processed_rows] that it prints equals their number: it counts the
    records kept, not the rows read. *)
Theorem processed_rows_counts_records
        parse_window float_repr self player_col stat_cols position_col team_col
        filters year_col file records :
  extract_fantasy_data parse_window float_repr self player_col stat_cols
                       position_col team_col filters year_col file
  = Some records ->
  exists header body st,
    file = Row header :: body
    /\ chunks_loop parse_window float_repr player_col stat_cols position_col
                   team_col filters year_col (length body)
                   (Z.to_nat (chunk_size self)) header body start = Some st
    /\ all_data st = records
    /\ processed_rows st = Z.of_nat (length records).
Proof.
  unfold extract_fantasy_data.
  destruct (chunk_size self <? 1); [discriminate|].
  destruct file as [|[header|e] body]; try discriminate.
  destruct (parse_window _ header []); cbn [mbind option_bind]; [|discriminate].
  destruct (chunks_loop _ _ _ _ _ _ _ _ _ _ _ _ _) as [st|] eqn:Hloop;
    cbn [mbind option_bind]; [|discriminate].
  intros [= <-]. exists header, body, st.
  split; [reflexivity|]. split; [exact Hloop|]. split; [reflexivity|].
  eapply (chunks_loop_inv parse_window float_repr player_col stat_cols
            position_col team_col year_col filters
            (fun s => processed_rows s = Z.of_nat (length (all_data s))));
    [|exact Hloop|reflexivity].
  intros s chunk s' Hs Hq.
  destruct (chunk_step_rows _ _ _ _ _ _ _ _ Hs) as (_ & Hc & _). lia.
Qed.

Lemma processed_rows_counts_records_witness :
  exists header body st,
    same_name_twice = Row header :: body
    /\ chunks_loop Defaults.read_csv_window Defaults.float_repr "name" ["pts"]
                   None None no_filters None (length body)
                   (Z.to_nat (chunk_size (init 50000))) header body start
       = Some st
    /\ all_data st = [ {[ "name" := CStr "A B"; "pts" := CInt 1 ]};
                       {[ "name" := CStr "A B"; "pts" := CInt 2 ]} ]
    /\ processed_rows st = 2.
Proof.
  apply (processed_rows_counts_records Defaults.read_csv_window
           Defaults.float_repr (init 50000) "name" ["pts"] None None
           no_filters None same_name_twice).
  vm_compute. reflexivity.
Defined.

(** X9.  The body of the extraction loop reads only columns that were
    asked of the parser: on a chunk that has every column of
    [columns_to_read] it raises no [KeyError]. *)
Theorem requested_columns_suffice
        float_repr player_col stat_cols position_col team_col filters year_col
        st chunk :
  (forall c, In c (columns_to_read player_col stat_cols position_col team_col
                                   year_col) ->
             has_column chunk c = true) ->
  exists st',
    chunk_step float_repr player_col position_col filters year_col st chunk
    = Some st'.
Proof.
  intros Hall.
  assert (Hin : forall c,
             In c (columns_to_read player_col stat_cols position_col team_col
                                   year_col) ->
             in_list c (map fst (columns chunk)) = true) by exact Hall.
  assert (Hcp : columns_present player_col position_col filters year_col
                                (columns chunk) = true).
  { unfold columns_present. rewrite !andb_true_iff. split; [split|].
    - apply Hin. unfold columns_to_read.
      do 3 apply add_column_keeps. left. reflexivity.
    - destruct (truthy position_col) as [pc|] eqn:Ep; [|reflexivity].
      destruct (positions filters); [|reflexivity].
      apply Hin. unfold columns_to_read.
      do 2 apply add_column_keeps. apply add_column_adds, Ep.
    - destruct (truthy year_col) as [yc|] eqn:Ey; [|reflexivity].
      destruct (year filters); [|reflexivity].
      apply Hin. unfold columns_to_read. apply add_column_adds, Ey. }
  pose proof (chunk_step_rowwise float_repr player_col position_col filters
                year_col (columns chunk) st (rows chunk)) as H.
  rewrite Hcp in H. destruct chunk as [cols rs]. simpl in H.
  destruct (chunk_step _ _ _ _ _ st _) as [st'|]; [eauto|discriminate].
Qed.

Lemma requested_columns_suffice_witness :
  exists st',
    chunk_step Defaults.float_repr "name" (Some "pos") only_qb None
               start two_positions = Some st'.
Proof.
  apply (requested_columns_suffice Defaults.float_repr "name" [] (Some "pos")
           None only_qb None start two_positions).
  intros c [<-|[<-|[]]]; reflexivity.
Defined.

(** X10.  With a position column and an empty list of accepted
    positions, every row is dropped: a run that returns, returns no
    record. *)
Theorem empty_positions_drop_all
        parse_window float_repr self player_col stat_cols position_col team_col
        yr year_col pc file records :
  truthy position_col = Some pc ->
  extract_fantasy_data parse_window float_repr self player_col stat_cols
                       position_col team_col
                       {| positions := Some []; year := yr |} year_col file
  = Some records ->
  records = [].
Proof.
  intros Hpc. unfold extract_fantasy_data.
  destruct (chunk_size self <? 1); [discriminate|].
  destruct file as [|[header|e] body]; try discriminate.
  destruct (parse_window _ header []); cbn [mbind option_bind]; [|discriminate].
  destruct (chunks_loop _ _ _ _ _ _ _ _ _ _ _ _ _) as [st|] eqn:Hloop;
    cbn [mbind option_bind]; [|discriminate].
  intros [= <-].
  eapply (chunks_loop_inv parse_window float_repr player_col stat_cols
            position_col team_col year_col _ (fun s => all_data s = []));
    [|exact Hloop|reflexivity].
  intros s chunk s' Hs Hq.
  destruct (chunk_step_rows _ _ _ _ _ _ _ _ Hs) as (Hd & _).
  rewrite Hd, Hq. simpl. rewrite filter_none; [reflexivity|].
  intros r. unfold position_ok. rewrite Hpc. simpl.
  replace (isin _ []) with false by (destruct (cell_of _ pc); reflexivity).
  simpl. apply andb_false_r.
Qed.

Lemma empty_positions_drop_all_witness :
  exists records,
    Defaults.extract_fantasy_data (init 50000) "name" [] (Some "pos") None
      {| positions := Some []; year := None |} None padded_position
    = Some records
    /\ records = [].
Proof.
  exists []. split; [vm_compute; reflexivity|].
  apply (empty_positions_drop_all Defaults.read_csv_window Defaults.float_repr
           (init 50000) "name" [] (Some "pos") None None None "pos"
           padded_position []).
  - reflexivity.
  - vm_compute. reflexivity.
Defined.

Lemma step_some_iff_columns float_repr player_col position_col filters year_col
      st chunk :
  (exists st', chunk_step float_repr player_col position_col filters year_col
                          st chunk = Some st'
               /\ all_data st'
                  = (all_data st
                     ++ kept_records float_repr player_col position_col
                          filters year_col (rows chunk))%list)
  <-> columns_present player_col position_col filters year_col (columns chunk)
      = true.
Proof.
  pose proof (chunk_step_rowwise float_repr player_col position_col filters
                year_col (columns chunk) st (rows chunk)) as H.
  destruct chunk as [cols rs]. simpl in *.
  destruct (chunk_step _ _ _ _ _ st _) as [st'|]; simpl in H;
    destruct (columns_present _ _ _ _ cols); try discriminate.
  - split; [reflexivity|]. intros _. exists st'. split; [reflexivity|].
    congruence.
  - split; [|discriminate]. intros (st' & H' & _). discriminate.
Qed.

(** X11.  Accepting more positions never loses a record: if the run with
    a list of accepted positions returns, so does the run with a longer
    list, every other argument being the same, and the records of the
    first are among the records of the second, in the same order. *)
Theorem wider_filter_keeps_more
        parse_window float_repr self player_col stat_cols position_col team_col
        yr year_col accepted accepted' file records :
  (forall s, In s accepted -> In s accepted') ->
  extract_fantasy_data parse_window float_repr self player_col stat_cols
                       position_col team_col
                       {| positions := Some accepted; year := yr |}
                       year_col file = Some records ->
  exists records',
    extract_fantasy_data parse_window float_repr self player_col stat_cols
                         position_col team_col
                         {| positions := Some accepted'; year := yr |}
                         year_col file = Some records'
    /\ sublist records records'.
Proof.
  intros Hsub. unfold extract_fantasy_data.
  destruct (chunk_size self <? 1); [discriminate|].
  destruct file as [|[header|e] body]; try discriminate.
  destruct (parse_window _ header []); cbn [mbind option_bind]; [|discriminate].
  set (f1 := {| positions := Some accepted; year := yr |}).
  set (f2 := {| positions := Some accepted'; year := yr |}).
  assert (Hsim : forall fuel evs st1 st2 st1',
             sublist (all_data st1) (all_data st2) ->
             chunks_loop parse_window float_repr player_col stat_cols
                         position_col team_col f1 year_col fuel
                         (Z.to_nat (chunk_size self)) header evs st1
             = Some st1' ->
             exists st2',
               chunks_loop parse_window float_repr player_col stat_cols
                           position_col team_col f2 year_col fuel
                           (Z.to_nat (chunk_size self)) header evs st2
               = Some st2'
               /\ sublist (all_data st1') (all_data st2')).
  { induction fuel as [|fuel IH]; intros evs st1 st2 st1' Hst.
    - destruct evs; simpl; [|discriminate]. intros [= <-]. eauto.
    - destruct evs as [|ev evs]; [intros [= <-]; simpl; eauto|].
      cbn [chunks_loop].
      destruct (next_window _ (ev :: evs)) as [[w rest]|];
        cbn [mbind option_bind]; [|discriminate].
      destruct (parse_window _ header w) as [chunk|];
        cbn [mbind option_bind]; [|discriminate].
      destruct (chunk_step float_repr player_col position_col f1 year_col
                           st1 chunk) as [s1|] eqn:E1;
        cbn [mbind option_bind]; [|discriminate].
      intros Hloop.
      assert (H1 : columns_present player_col position_col f1 year_col
                                   (columns chunk) = true).
      { apply (step_some_iff_columns float_repr player_col position_col f1
                 year_col st1 chunk).
        exists s1. split; [assumption|].
        destruct (chunk_step_rows _ _ _ _ _ _ _ _ E1) as [-> _]. reflexivity. }
      assert (H2 : columns_present player_col position_col f2 year_col
                                   (columns chunk) = true) by exact H1.
      apply (step_some_iff_columns float_repr player_col position_col f2
               year_col st2 chunk) in H2 as (s2 & E2 & Hd2).
      rewrite E2. cbn [mbind option_bind].
      apply (IH _ s1 s2 _); [|exact Hloop].
      destruct (chunk_step_rows _ _ _ _ _ _ _ _ E1) as [-> _]. rewrite Hd2.
      apply sublist_app; [assumption|].
      unfold kept_records. apply sublist_map, filter_sublist_impl.
      intros r Hr. apply andb_true_iff in Hr as [Hn Hr].
      apply andb_true_iff in Hr as [Hp Hy]. rewrite Hn. simpl.
      apply andb_true_iff. split; [|exact Hy].
      revert Hp. unfold position_ok. simpl.
      destruct (truthy position_col) as [pc|]; [|auto].
      unfold isin. destruct (cell_of _ pc); auto.
      rewrite !in_list_In. apply Hsub. }
  destruct (chunks_loop _ _ _ _ _ _ f1 _ _ _ _ _ _) as [st1|] eqn:Hloop;
    cbn [mbind option_bind]; [|discriminate].
  intros [= <-].
  destruct (Hsim _ _ start start st1 (sublist_nil) Hloop) as (st2 & -> & Hs).
  cbn [mbind option_bind]. eauto.
Qed.

Lemma wider_filter_keeps_more_witness :
  exists records',
    Defaults.extract_fantasy_data (init 2) "name" [] (Some "pos") None
                                  qb_or_rb None three_players = Some records'
    /\ sublist [ ({[ "name" := CStr "A B"; "pos" := CStr "QB" ]}
                  : gmap string cell) ] records'.
Proof.
  apply (wider_filter_keeps_more Defaults.read_csv_window Defaults.float_repr
           (init 2) "name" [] (Some "pos") None None None ["QB"] ["QB"; "RB"]
           three_players).
  - intros s [<-|[]]. left. reflexivity.
  - vm_compute. reflexivity.
Defined.

(** A window that takes every event left is the same for every size
    that covers them, and leaves nothing. *)
Lemma next_window_covering : forall evs n m,
  (length evs <= n)%nat -> (length evs <= m)%nat ->
  next_window n evs = next_window m evs
  /\ forall w rest, next_window n evs = Some (w, rest) -> rest = [].
Proof.
  induction evs as [|ev evs IH]; intros n m Hn Hm.
  - destruct n, m; simpl; (split; [reflexivity|]); intros w rest [= _ <-];
      reflexivity.
  - destruct n as [|n]; [simpl in Hn; lia|].
    destruct m as [|m]; [simpl in Hm; lia|].
    simpl in Hn, Hm. destruct ev as [r|e]; simpl.
    + destruct (IH n m ltac:(lia) ltac:(lia)) as [-> Hrest].
      split; [reflexivity|]. intros w rest.
      destruct (next_window m evs) as [[w' rest']|] eqn:E; [|discriminate].
      intros [= _ <-]. apply (Hrest w' rest'). reflexivity.
    + split; [reflexivity|discriminate].
Qed.

Lemma next_window_whole : forall (rs : list (list string)) n,
  (length rs <= n)%nat -> next_window n (map Row rs) = Some (rs, []).
Proof.
  induction rs as [|r rs IH]; intros n Hn.
  - destruct n; reflexivity.
  - destruct n as [|n]; [simpl in Hn; lia|]. simpl in Hn |- *.
    rewrite IH by lia. reflexivity.
Qed.

(** X12.  A chunk size that covers the data rows of the file makes the
    file one chunk: two processors whose chunk sizes both cover the file
    return the same result, whatever the parser makes of a window, and
    for a file read without a fault that result is what the loop body
    gives on the one frame of all the rows. *)
Theorem covering_chunk_sizes_agree
        parse_window float_repr self1 self2 player_col stat_cols
        position_col team_col filters year_col header body :
  1 <= chunk_size self1 -> 1 <= chunk_size self2 ->
  Z.of_nat (length body) <= chunk_size self1 ->
  Z.of_nat (length body) <= chunk_size self2 ->
  extract_fantasy_data parse_window float_repr self1 player_col stat_cols
                       position_col team_col filters year_col
                       (Row header :: body)
  = extract_fantasy_data parse_window float_repr self2 player_col stat_cols
                         position_col team_col filters year_col
                         (Row header :: body)
  /\ (forall rs, body = map Row rs -> rs <> [] ->
      extract_fantasy_data parse_window float_repr self1 player_col stat_cols
                           position_col team_col filters year_col
                           (Row header :: body)
      = (_ ← parse_window (columns_to_read player_col stat_cols position_col
                                           team_col year_col) header [];
         chunk ← parse_window (columns_to_read player_col stat_cols
                                               position_col team_col year_col)
                              header rs;
         st ← chunk_step float_repr player_col position_col filters year_col
                         start chunk;
         Some (all_data st))).
Proof.
  intros H1 H2 Hc1 Hc2.
  assert (Hloop : forall n m fuel st,
            (length body <= n)%nat -> (length body <= m)%nat ->
            chunks_loop parse_window float_repr player_col stat_cols
                        position_col team_col filters year_col fuel n header
                        body st
            = chunks_loop parse_window float_repr player_col stat_cols
                          position_col team_col filters year_col fuel m header
                          body st).
  { intros n m fuel st Hn Hm.
    destruct body as [|ev evs]; [destruct fuel; reflexivity|].
    destruct fuel as [|fuel]; [reflexivity|]. cbn [chunks_loop].
    destruct (next_window_covering (ev :: evs) n m Hn Hm) as [-> Hrest].
    destruct (next_window m (ev :: evs)) as [[w rest]|] eqn:E;
      cbn [mbind option_bind]; [|reflexivity].
    rewrite (Hrest w rest eq_refl).
    destruct (parse_window _ header w) as [chunk|];
      cbn [mbind option_bind]; [|reflexivity].
    destruct (chunk_step _ _ _ _ _ st chunk) as [st'|];
      cbn [mbind option_bind]; [|reflexivity].
    destruct fuel; reflexivity. }
  split.
  - unfold extract_fantasy_data.
    replace (chunk_size self1 <? 1) with false
      by (symmetry; apply Z.ltb_ge; lia).
    replace (chunk_size self2 <? 1) with false
      by (symmetry; apply Z.ltb_ge; lia).
    rewrite (Hloop (Z.to_nat (chunk_size self1)) (Z.to_nat (chunk_size self2)))
      by lia.
    reflexivity.
  - intros rs -> Hne. unfold extract_fantasy_data.
    replace (chunk_size self1 <? 1) with false
      by (symmetry; apply Z.ltb_ge; lia).
    destruct (parse_window _ header []) as [empty|];
      cbn [mbind option_bind]; [|reflexivity].
    destruct rs as [|r rs]; [contradiction|].
    rewrite length_map in Hc1 |- *.
    change (map Row (r :: rs)) with (Row r :: map Row rs).
    cbn [length chunks_loop].
    change (Row r :: map Row rs) with (map Row (r :: rs)).
    rewrite next_window_whole by (simpl in Hc1 |- *; lia).
    cbn [mbind option_bind].
    destruct (parse_window _ header (r :: rs)) as [chunk|];
      cbn [mbind option_bind]; [|reflexivity].
    destruct (chunk_step _ _ _ _ _ start chunk) as [st'|];
      cbn [mbind option_bind]; [|reflexivity].
    destruct (length rs); reflexivity.
Qed.

Lemma covering_chunk_sizes_agree_witness :
  extract_fantasy_data Defaults.read_csv_window Defaults.float_repr (init 7)
                       "name" ["pts"] None None no_filters None
                       (Row ["name"; "pts"]
                          :: [Row ["A B"; "1"]; Row ["C D"; "x"]])
  = extract_fantasy_data Defaults.read_csv_window Defaults.float_repr
                         (init 10000) "name" ["pts"] None None no_filters None
                         (Row ["name"; "pts"]
                            :: [Row ["A B"; "1"]; Row ["C D"; "x"]]).
Proof.
  refine (proj1 (covering_chunk_sizes_agree
                   Defaults.read_csv_window Defaults.float_repr
                   (init 7) (init 10000) "name" ["pts"] None None no_filters
                   None ["name"; "pts"]
                   [Row ["A B"; "1"]; Row ["C D"; "x"]] _ _ _ _));
    simpl; lia.
Defined.

Lemma column_dtype_of_header df col :
  In col (map fst (columns df)) -> is_Some (column_dtype df col).
Proof.
  unfold column_dtype. intros H.
  destruct (List.find _ (columns df)) as [cd|] eqn:Ef; [simpl; eauto|].
  exfalso. apply in_map_iff in H as ([c d] & <- & Hin).
  apply (find_none _ _ Ef) in Hin. simpl in Hin.
  rewrite String.eqb_refl in Hin. discriminate.
Qed.

Lemma mapM_fst_headers float_repr df : forall hs roles,
  mapM (fun col =>
          dt ← column_dtype df col;
          Some (col, column_role float_repr col dt (column_values df col)))
       hs = Some roles ->
  map fst roles = hs.
Proof.
  intros hs roles H. apply mapM_Some in H.
  induction H as [|x y hs roles Hxy _ IH]; simpl; [reflexivity|].
  destruct (column_dtype df x); cbn [mbind option_bind] in Hxy; [|discriminate].
  injection Hxy as <-. simpl. congruence.
Qed.

(** X13.  The four lists that [detect_player_columns] returns are
    pairwise disjoint, and each is a part of the headers in their order:
    a column gets at most one role. *)
Theorem detected_lists_disjoint_and_ordered float_repr self pl st po te :
  detect_player_columns float_repr self = Some (pl, st, po, te) ->
  (forall col,
      ~ (In col pl /\ In col st) /\ ~ (In col pl /\ In col po)
      /\ ~ (In col pl /\ In col te) /\ ~ (In col st /\ In col po)
      /\ ~ (In col st /\ In col te) /\ ~ (In col po /\ In col te))
  /\ sublist pl (headers self) /\ sublist st (headers self)
  /\ sublist po (headers self) /\ sublist te (headers self).
Proof.
  intros Hdet. destruct (sample_data self) as [df|] eqn:Hdf.
  - split.
    + intros col.
      assert (Hone : forall r1 r2,
                 In col match r1 with
                        | PlayerCol => pl | StatCol => st
                        | PositionCol => po | TeamCol => te
                        end ->
                 In col match r2 with
                        | PlayerCol => pl | StatCol => st
                        | PositionCol => po | TeamCol => te
                        end ->
                 r1 = r2).
      { intros r1 r2 H1 H2.
        apply (detect_lists float_repr self df pl st po te Hdf Hdet) in H1
          as [_ (d1 & Hd1 & Hr1)].
        apply (detect_lists float_repr self df pl st po te Hdf Hdet) in H2
          as [_ (d2 & Hd2 & Hr2)].
        congruence. }
      repeat split; intros [H1 H2].
      * discriminate (Hone PlayerCol StatCol H1 H2).
      * discriminate (Hone PlayerCol PositionCol H1 H2).
      * discriminate (Hone PlayerCol TeamCol H1 H2).
      * discriminate (Hone StatCol PositionCol H1 H2).
      * discriminate (Hone StatCol TeamCol H1 H2).
      * discriminate (Hone PositionCol TeamCol H1 H2).
    + unfold detect_player_columns in Hdet. rewrite Hdf in Hdet.
      destruct (mapM _ (headers self)) as [roles|] eqn:Hm;
        cbn [mbind option_bind] in Hdet; [|discriminate].
      injection Hdet as <- <- <- <-.
      rewrite <- (mapM_fst_headers _ _ _ _ Hm). unfold columns_with.
      repeat split; apply map_fst_filter_sublist.
  - unfold detect_player_columns in Hdet. rewrite Hdf in Hdet.
    injection Hdet as <- <- <- <-. simpl.
    split; [intros col; tauto|]. repeat split; apply sublist_nil_l.
Qed.

Lemma detected_lists_disjoint_and_ordered_witness :
  sublist ["player_name"] ["player_name"; "pos"; "pts"]
  /\ sublist ["pts"] ["player_name"; "pos"; "pts"].
Proof.
  destruct (detected_lists_disjoint_and_ordered Defaults.float_repr
              {| chunk_size := 5; headers := ["player_name"; "pos"; "pts"];
                 total_rows := 1; sample_data := Some mixed_sample |}
              ["player_name"] ["pts"] ["pos"] [])
    as (_ & H1 & H2 & _).
  - vm_compute. reflexivity.
  - split; assumption.
Defined.

(** X14.  After [analyze_file_structure] has succeeded, the headers are
    the columns of the sample in their order, so [detect_player_columns]
    finds every header in the sample and returns its lists (no
    [KeyError]); and a failure of the row count alone does not make the
    analysis fail. *)
Theorem analysis_then_detection float_repr sample count self self' :
  analyze_file_structure sample count self = (true, self') ->
  (exists df, sample = Some df /\ sample_data self' = Some df
              /\ headers self' = map fst (columns df))
  /\ (exists lists, detect_player_columns float_repr self' = Some lists)
  /\ fst (analyze_file_structure sample None self) = true.
Proof.
  unfold analyze_file_structure. destruct sample as [df|]; [|discriminate].
  intros [= <-]. split; [eauto|]. split; [|reflexivity].
  unfold detect_player_columns. simpl.
  assert (Hm : forall hs, (forall c, In c hs -> In c (map fst (columns df))) ->
             is_Some (mapM (fun col =>
                        dt ← column_dtype df col;
                        Some (col, column_role float_repr col dt
                                               (column_values df col))) hs)).
  { intros hs Hin. apply mapM_is_Some, Forall_forall. intros c Hc.
    apply list_elem_of_In in Hc. simpl.
    destruct (column_dtype_of_header df c (Hin c Hc)) as [dt ->].
    cbn [mbind option_bind]. eauto. }
  destruct (Hm (map fst (columns df)) (fun c H => H)) as [roles ->].
  cbn [mbind option_bind]. eauto.
Qed.

Lemma analysis_then_detection_witness :
  exists lists,
    detect_player_columns Defaults.float_repr
      {| chunk_size := 5; headers := ["player_name"; "pos"; "pts"];
         total_rows := 0; sample_data := Some mixed_sample |}
    = Some lists.
Proof.
  apply (analysis_then_detection Defaults.float_repr (Some mixed_sample) None
           (init 5)).
  reflexivity.
Defined.

Lemma select_stat_cols_subset stat_cols answers selected rest :
  select_stat_cols stat_cols answers = Some (selected, rest) ->
  forall c, In c selected -> In c stat_cols.
Proof.
  unfold select_stat_cols. destruct answers as [|a answers]; [discriminate|].
  destruct (String.eqb _ "y"); [intros [= <- _]; auto|].
  destruct answers as [|a' answers]; [discriminate|].
  destruct (String.eqb _ "all"); [intros [= <- _]; auto|].
  destruct (parse_indices _) as [indices|]; [|intros [= <- _]; auto].
  intros [= <- _] c Hc. apply in_flat_map in Hc as (i & _ & Hc).
  destruct (_ && _); [|destruct Hc].
  destruct (nth_error stat_cols (Z.to_nat i)) as [c'|] eqn:En; [|destruct Hc].
  destruct Hc as [<-|[]]. eapply nth_error_In, En.
Qed.

Lemma ask_filters_trimmed position_col answers filters :
  ask_filters position_col answers = Some filters ->
  year filters = None
  /\ forall accepted, positions filters = Some accepted ->
       is_Some (truthy position_col)
       /\ forall s, In s accepted -> strip s = s.
Proof.
  unfold ask_filters. destruct (truthy position_col) as [pc|].
  - destruct answers as [|a answers]; [discriminate|].
    destruct (is_empty (strip a)); intros [= <-]; simpl;
      (split; [reflexivity|]); intros accepted; [discriminate|].
    intros [= <-]. split; [eauto|]. intros s Hs.
    apply in_map_iff in Hs as (x & <- & _). apply strip_idem.
  - intros [= <-]. simpl. split; [reflexivity|]. discriminate.
Qed.

(** X15.  Whatever the operator answers, [interactive_setup] selects
    stat columns among the detected ones only (numbers out of range are
    ignored), takes the first detected position and team columns, sets no
    year filter, and sets a position filter only when there is a position
    column, with every accepted value trimmed. *)
Theorem interactive_setup_selection
        float_repr self answers pl st po te
        player_col selected position_col team_col filters :
  detect_player_columns float_repr self = Some (pl, st, po, te) ->
  interactive_setup float_repr self answers
  = Some (player_col, selected, position_col, team_col, filters) ->
  (forall c, In c selected -> In c st)
  /\ position_col = head po /\ team_col = head te
  /\ (forall c, pl = [c] -> player_col = c)
  /\ year filters = None
  /\ (forall accepted, positions filters = Some accepted ->
        is_Some (truthy position_col)
        /\ forall s, In s accepted -> strip s = s).
Proof.
  intros Hdet. unfold interactive_setup. rewrite Hdet.
  cbn [mbind option_bind].
  destruct (match pl with
            | [] => _ | [c] => _ | c :: _ :: _ => _
            end) as [[pc answers1]|] eqn:Hpc;
    cbn [mbind option_bind]; [|discriminate].
  destruct (select_stat_cols st answers1) as [[sel answers2]|] eqn:Hsel;
    cbn [mbind option_bind]; [|discriminate].
  destruct (ask_filters (head po) answers2) as [fl|] eqn:Hfl;
    cbn [mbind option_bind]; [|discriminate].
  intros [= <- <- <- <- <-].
  split; [eapply select_stat_cols_subset, Hsel|].
  split; [reflexivity|]. split; [reflexivity|]. split.
  - intros c ->. injection Hpc as <- _. reflexivity.
  - apply (ask_filters_trimmed _ _ _ Hfl).
Qed.

Lemma interactive_setup_selection_witness :
  (forall c, In c ["pts"] -> In c ["pts"])
  /\ Some "pos" = head ["pos"].
Proof.
  destruct (interactive_setup_selection Defaults.float_repr
              {| chunk_size := 5; headers := ["player_name"; "pos"; "pts"];
                 total_rows := 1; sample_data := Some mixed_sample |}
              ["n"; "1,5,0"; " QB , RB"]
              ["player_name"] ["pts"] ["pos"] []
              "player_name" ["pts"] (Some "pos") None qb_or_rb)
    as (H1 & H2 & _).
  - vm_compute. reflexivity.
  - vm_compute. reflexivity.
  - split; assumption.
Defined.

(** X16.  A position filter set at the prompt never accepts a cell with
    white space around its text: the accepted values are trimmed and the
    cell is compared as it is, so the row of such a cell is dropped. *)
Theorem padded_cell_never_accepted
        float_repr self answers player_col selected position_col team_col
        filters accepted pc r s :
  interactive_setup float_repr self answers
  = Some (player_col, selected, position_col, team_col, filters) ->
  positions filters = Some accepted ->
  truthy position_col = Some pc ->
  cell_of r pc = CStr s -> strip s <> s ->
  position_ok position_col filters r = false.
Proof.
  intros Hsetup Hacc Hpc Hcell Hs.
  assert (Htrim : forall x, In x accepted -> strip x = x).
  { unfold interactive_setup in Hsetup.
    destruct (detect_player_columns float_repr self)
      as [[[[pl st] po] te]|]; cbn [mbind option_bind] in Hsetup;
      [|discriminate].
    destruct (match pl with
              | [] => _ | [c] => _ | c :: _ :: _ => _
              end) as [[pc' answers1]|];
      cbn [mbind option_bind] in Hsetup; [|discriminate].
    destruct (select_stat_cols st answers1) as [[sel answers2]|];
      cbn [mbind option_bind] in Hsetup; [|discriminate].
    destruct (ask_filters (head po) answers2) as [fl|] eqn:Hfl;
      cbn [mbind option_bind] in Hsetup; [|discriminate].
    injection Hsetup as <- <- <- <- <-.
    apply (ask_filters_trimmed _ _ _ Hfl). assumption. }
  unfold position_ok. rewrite Hpc, Hacc, Hcell. simpl.
  destruct (in_list s accepted) eqn:E; [|reflexivity].
  apply in_list_In, Htrim in E. contradiction.
Qed.

Lemma padded_cell_never_accepted_witness :
  position_ok (Some "pos") qb_or_rb
              {[ "player_name" := CStr "A B"; "pos" := CStr " QB" ]}
  = false.
Proof.
  apply (padded_cell_never_accepted Defaults.float_repr
           {| chunk_size := 5; headers := ["player_name"; "pos"; "pts"];
              total_rows := 1; sample_data := Some mixed_sample |}
           ["n"; "1,5,0"; " QB , RB"]
           "player_name" ["pts"] (Some "pos") None qb_or_rb ["QB"; "RB"]
           "pos" _ " QB").
  - vm_compute. reflexivity.
  - reflexivity.
  - reflexivity.
  - vm_compute. reflexivity.
  - vm_compute. discriminate.
Defined.

End PandasExtras.

(* ===================================================================== *)
(** * The conversion chain on the text of an integer *)
(* ===================================================================== *)

Module CoerceExtras.
Import PyStr PyNum Py LargeCSV StrFacts.

Lemma digit_char c :
  isdigit c = true ->
  isspace c = false /\ Ascii.eqb c "-" = false /\ Ascii.eqb c "+" = false
  /\ Ascii.eqb "." c = false.
Proof.
  destruct c as [[] [] [] [] [] [] [] []]; vm_compute; intros H;
    try discriminate H; repeat split.
Qed.

Lemma digit_value_bounds c : isdigit c = true -> 0 <= digit_value c <= 9.
Proof.
  unfold isdigit, digit_value. intros H.
  apply andb_true_iff in H as [H1 H2].
  apply Z.leb_le in H1, H2. lia.
Qed.

Lemma uint_all_digits d :
  Forall (fun c => isdigit c = true)
         (list_ascii_of_string (NilEmpty.string_of_uint d)).
Proof. induction d; simpl; constructor; solve [reflexivity | assumption]. Qed.

Lemma digits_only s :
  Forall (fun c => isdigit c = true) (list_ascii_of_string s) ->
  rstrip s = s /\ has_char "." s = false
  /\ digits_from s = (list_ascii_of_string s, EmptyString).
Proof.
  induction s as [|c t IH];
    cbn [rstrip has_char digits_from list_ascii_of_string]; intros H;
    [repeat split; reflexivity|].
  inversion H as [|? ? Hc Ht]; subst.
  destruct (digit_char c Hc) as (Hsp & _ & _ & Hdot).
  destruct (IH Ht) as (Hr & Hh & Hd).
  rewrite Hsp, Hr, Hh, Hd, Hc, Hdot, andb_false_r. repeat split.
Qed.

Lemma lstrip_app_space pre s :
  all_space pre = true -> lstrip (pre ++ s) = lstrip s.
Proof.
  induction pre as [|c t IH]; simpl; [reflexivity|].
  intros H. apply andb_true_iff in H as [-> H]. apply IH, H.
Qed.

Lemma rstrip_space post : all_space post = true -> rstrip post = "".
Proof.
  induction post as [|c t IH]; simpl; [reflexivity|].
  intros H. apply andb_true_iff in H as [-> H]. rewrite (IH H). reflexivity.
Qed.

Lemma rstrip_app_space s post :
  all_space post = true -> rstrip (s ++ post) = rstrip s.
Proof.
  intros H. induction s as [|c t IH]; simpl.
  - apply rstrip_space, H.
  - rewrite IH. reflexivity.
Qed.

Lemma digits_value_acc d acc :
  fold_left (fun a c => 10 * a + digit_value c)
            (list_ascii_of_string (NilEmpty.string_of_uint d)) (Zpos acc)
  = Zpos (Pos.of_uint_acc d acc).
Proof.
  revert acc.
  induction d as [|d IH|d IH|d IH|d IH|d IH|d IH|d IH|d IH|d IH|d IH];
    intros acc;
    cbn [NilEmpty.string_of_uint list_ascii_of_string fold_left
         Pos.of_uint_acc]; [reflexivity|..];
    rewrite <- IH; f_equal; unfold digit_value, code; simpl N_of_ascii;
    lia.
Qed.

Lemma digits_value_uint d :
  digits_value (list_ascii_of_string (NilEmpty.string_of_uint d))
  = Z.of_N (Pos.of_uint d).
Proof.
  unfold digits_value.
  induction d as [|d IH|d IH|d IH|d IH|d IH|d IH|d IH|d IH|d IH|d IH];
    cbn [NilEmpty.string_of_uint list_ascii_of_string fold_left Pos.of_uint];
    [reflexivity|exact IH|..];
    cbn [Z.of_N]; rewrite <- digits_value_acc; reflexivity.
Qed.

(** The value of a run of digits lies between its leading part and the
    next value of it, each followed by as many zeros. *)
Lemma value_bounds : forall ds acc,
  Forall (fun c => isdigit c = true) ds -> 0 <= acc ->
  acc * 10 ^ Z.of_nat (length ds)
  <= fold_left (fun a c => 10 * a + digit_value c) ds acc
  < (acc + 1) * 10 ^ Z.of_nat (length ds).
Proof.
  induction ds as [|c ds IH]; intros acc Hall Hacc.
  - cbn [fold_left length]. change (10 ^ Z.of_nat 0) with 1. lia.
  - inversion Hall as [|? ? Hc Hds]; subst.
    pose proof (digit_value_bounds c Hc) as Hd.
    cbn [fold_left length]. rewrite Nat2Z.inj_succ, Z.pow_succ_r by lia.
    specialize (IH (10 * acc + digit_value c) Hds ltac:(lia)).
    assert (HP : 0 < 10 ^ Z.of_nat (length ds))
      by (apply Z.pow_pos_nonneg; lia).
    nia.
Qed.

(** The digits of a positive number begin with a digit that is not 0. *)
Lemma to_uint_leading p :
  exists c t, NilEmpty.string_of_uint (Pos.to_uint p) = String c t
              /\ 1 <= digit_value c.
Proof.
  assert (Hnorm : Decimal.unorm (Pos.to_uint p) = Pos.to_uint p).
  { rewrite <- (DecimalPos.Unsigned.to_of (Pos.to_uint p)).
    rewrite DecimalPos.Unsigned.of_to. reflexivity. }
  pose proof (DecimalPos.Unsigned.to_uint_nonzero p) as Hnz.
  destruct (Pos.to_uint p) as [|u|u|u|u|u|u|u|u|u|u] eqn:E;
    try (eexists _, _; split; [reflexivity|];
         unfold digit_value, code; simpl; lia).
  - destruct (DecimalPos.Unsigned.to_uint_nonnil p E).
  - exfalso. rewrite DecimalFacts.unorm_D0 in Hnorm.
    destruct u as [|v|v|v|v|v|v|v|v|v|v];
      [apply Hnz; reflexivity|..];
      (match type of Hnorm with
       | Decimal.unorm ?w = _ =>
           assert (Hlen : (Decimal.nb_digits (Decimal.unorm w)
                           <= Decimal.nb_digits w)%nat)
             by (apply DecimalFacts.nb_digits_unorm; discriminate)
       end; rewrite Hnorm in Hlen; simpl in Hlen; lia).
Qed.

(** The number of digits of a positive number against a bound. *)
Lemma digit_count_bound p n :
  0 <= n ->
  (Z.of_nat (length (list_ascii_of_string
                       (NilEmpty.string_of_uint (Pos.to_uint p)))) <=? n)
  = (Zpos p <? 10 ^ n).
Proof.
  intros Hn. destruct (to_uint_leading p) as (c & t & Es & Hc).
  pose proof (uint_all_digits (Pos.to_uint p)) as Hall.
  pose proof (digits_value_uint (Pos.to_uint p)) as Hv.
  rewrite DecimalPos.Unsigned.of_to in Hv. rewrite Es in Hall, Hv |- *.
  cbn [list_ascii_of_string length] in Hall, Hv |- *.
  inversion Hall as [|? ? Hdc Hdt]; subst.
  pose proof (digit_value_bounds c Hdc) as Hd.
  unfold digits_value in Hv. cbn [fold_left] in Hv.
  pose proof (value_bounds (list_ascii_of_string t) (10 * 0 + digit_value c)
                           Hdt ltac:(lia)) as [Hlo Hhi].
  rewrite Hv in Hlo, Hhi. cbn [Z.of_N] in Hlo, Hhi.
  rewrite Nat2Z.inj_succ.
  set (l := Z.of_nat (length (list_ascii_of_string t))) in *.
  assert (Hl : 0 <= l) by (unfold l; lia).
  assert (HP : 0 < 10 ^ l) by (apply Z.pow_pos_nonneg; lia).
  destruct (Z.leb_spec (Z.succ l) n) as [Hle|Hgt];
    destruct (Z.ltb_spec (Zpos p) (10 ^ n)) as [Hlt|Hge];
    try reflexivity; exfalso.
  - assert (10 ^ Z.succ l <= 10 ^ n) by (apply Z.pow_le_mono_r; lia).
    rewrite Z.pow_succ_r in H by lia. nia.
  - assert (10 ^ n <= 10 ^ l) by (apply Z.pow_le_mono_r; lia). nia.
Qed.

Lemma max_str_digits_nonneg : 0 <= max_str_digits.
Proof. unfold max_str_digits. lia. Qed.

(** [int] on the digits of a positive number, with or without a minus
    sign before them: the number when it has no more digits than the
    limit, an error beyond. *)
Lemma py_int_digits (neg : bool) (p : positive) :
  let s := NilEmpty.string_of_uint (Pos.to_uint p) in
  py_int (if neg then String "-"%char s else s)
  = (if Zpos p <? 10 ^ max_str_digits
     then Some (if neg then Zneg p else Zpos p) else None)
  /\ strip (if neg then String "-"%char s else s)
     = (if neg then String "-"%char s else s)
  /\ has_char "." (if neg then String "-"%char s else s) = false
  /\ lstrip (if neg then String "-"%char s else s)
     = (if neg then String "-"%char s else s).
Proof.
  intros s.
  destruct (digits_only s (uint_all_digits _)) as (Hr & Hh & Hd).
  assert (Hv : digits_value (list_ascii_of_string s) = Zpos p).
  { unfold s. rewrite digits_value_uint, DecimalPos.Unsigned.of_to.
    reflexivity. }
  pose proof (digit_count_bound p max_str_digits max_str_digits_nonneg)
    as Hcount. fold s in Hcount.
  destruct s as [|c t] eqn:Es.
  { simpl in Hv. discriminate. }
  pose proof (uint_all_digits (Pos.to_uint p)) as Hall.
  fold s in Hall. rewrite Es in Hall. simpl in Hall.
  inversion Hall as [|? ? Hc _]; subst.
  destruct (digit_char c Hc) as (Hsp & Hm & Hp & Hdot).
  assert (Hl : lstrip (String c t) = String c t).
  { simpl. rewrite Hsp. reflexivity. }
  assert (Hs : strip (String c t) = String c t).
  { unfold strip. rewrite Hl. exact Hr. }
  assert (Hdp : digitpart (String c t)
                = (list_ascii_of_string (String c t), EmptyString)).
  { unfold digitpart. rewrite Hc. exact Hd. }
  cbn [list_ascii_of_string] in Hcount, Hv, Hdp.
  destruct neg.
  - assert (Hs' : strip (String "-" (String c t)) = String "-" (String c t)).
    { unfold strip. change (lstrip (String "-" (String c t)))
        with (String "-" (String c t)).
      change (rstrip (String "-" (String c t)))
        with (if is_empty (rstrip (String c t)) && false
              then "" else String "-" (rstrip (String c t))).
      rewrite andb_false_r, Hr. reflexivity. }
    split; [|split; [exact Hs'|split; [|reflexivity]]].
    + unfold py_int. rewrite Hs'.
      change (sign (String "-" (String c t))) with (true, String c t).
      cbv iota beta. rewrite Hdp. cbv iota beta zeta.
      rewrite Hcount, Hv. reflexivity.
    + change (has_char "." (String "-" (String c t)))
        with (has_char "." (String c t)). exact Hh.
  - split; [|split; [exact Hs|split; [exact Hh|exact Hl]]].
    unfold py_int. rewrite Hs. unfold sign. rewrite Hm, Hp.
    cbv iota beta. rewrite Hdp. cbv iota beta zeta.
    rewrite Hcount, Hv. reflexivity.
Qed.

(** [str(z)]: the digits of [z], after a minus sign when it is
    negative. *)
Lemma int_text z :
  DecimalString.NilZero.string_of_int (Z.to_int z)
  = match z with
    | 0 => "0"
    | Zpos p => NilEmpty.string_of_uint (Pos.to_uint p)
    | Zneg p => String "-" (NilEmpty.string_of_uint (Pos.to_uint p))
    end.
Proof.
  destruct z as [|p|p]; [reflexivity|..]; simpl;
    unfold NilZero.string_of_uint;
    (destruct (Pos.to_uint p) eqn:E; try reflexivity;
     destruct (DecimalPos.Unsigned.to_uint_nonnil p E)).
Qed.

(** X17.  A stat cell that holds the decimal text of an integer, with any
    white space around it, is stored as that integer when the integer
    has at most [max_str_digits] digits: trimming and [int] undo the
    writing of the number, and the cell is neither a float nor a text.
    With more digits [int] raises, and the cell is stored as the trimmed
    text. *)
Theorem integer_cell_round_trip z pre post :
  all_space pre = true -> all_space post = true ->
  (Z.abs z < 10 ^ max_str_digits ->
   coerce (strip (pre ++ DecimalString.NilZero.string_of_int (Z.to_int z)
                      ++ post))
   = VInt z)
  /\ (10 ^ max_str_digits <= Z.abs z ->
      coerce (strip (pre ++ DecimalString.NilZero.string_of_int (Z.to_int z)
                         ++ post))
      = VStr (DecimalString.NilZero.string_of_int (Z.to_int z))).
Proof.
  intros Hpre Hpost.
  assert (H : exists s, DecimalString.NilZero.string_of_int (Z.to_int z) = s
                        /\ py_int s = (if Z.abs z <? 10 ^ max_str_digits
                                       then Some z else None)
                        /\ strip s = s
                        /\ has_char "." s = false /\ lstrip s = s
                        /\ s <> "").
  { rewrite int_text. destruct z as [|p|p].
    - exists "0". split; [reflexivity|]. split; [|repeat split; discriminate].
      replace (Z.abs 0 <? 10 ^ max_str_digits) with true; [reflexivity|].
      symmetry. apply Z.ltb_lt. apply Z.pow_pos_nonneg;
        [lia|apply max_str_digits_nonneg].
    - destruct (py_int_digits false p) as (H1 & H2 & H3 & H4).
      eexists. split; [reflexivity|].
      split; [exact H1|]. split; [exact H2|]. split; [exact H3|].
      split; [exact H4|].
      destruct (to_uint_leading p) as (c & t & -> & _). discriminate.
    - destruct (py_int_digits true p) as (H1 & H2 & H3 & H4).
      eexists. split; [reflexivity|].
      split; [exact H1|]. split; [exact H2|]. split; [exact H3|].
      split; [exact H4|]. discriminate. }
  destruct H as (s & -> & Hint & Hs & Hdot & Hl & Hne).
  assert (Hstrip : strip (pre ++ s ++ post) = s).
  { unfold strip. rewrite lstrip_app_space by assumption.
    assert (Hl' : lstrip (s ++ post) = s ++ post).
    { destruct s as [|c t]; [contradiction|].
      simpl in Hl |- *.
      destruct (isspace c); [|reflexivity].
      exfalso. clear -Hl.
      assert (Hlen : forall u, (String.length (lstrip u) <= String.length u)%nat).
      { induction u as [|a u IH]; simpl; [lia|].
        destruct (isspace a); simpl; lia. }
      specialize (Hlen t). rewrite Hl in Hlen. simpl in Hlen. lia. }
    rewrite Hl', rstrip_app_space by assumption.
    unfold strip in Hs. rewrite Hl in Hs. exact Hs. }
  rewrite Hstrip. unfold coerce. rewrite contains_char, Hdot, Hint.
  split; intros Hz.
  - replace (Z.abs z <? 10 ^ max_str_digits) with true
      by (symmetry; apply Z.ltb_lt; exact Hz).
    reflexivity.
  - replace (Z.abs z <? 10 ^ max_str_digits) with false
      by (symmetry; apply Z.ltb_ge; exact Hz).
    reflexivity.
Qed.

Lemma integer_cell_round_trip_witness :
  coerce (strip (" " ++ "-42" ++ "  ")) = VInt (-42).
Proof.
  apply (proj1 (integer_cell_round_trip (-42) " " "  " eq_refl eq_refl)).
  vm_compute. reflexivity.
Defined.

End CoerceExtras.
